(** * telloterm joystick front end: a shallow embedding of [joystick.go]

    The Go file maps a game controller's raw axes and button bitmask to
    Tello stick messages and drone calls.  This development embeds

    - the device profiles ([joystickConfig] and the five tables),
    - profile selection ([setupJoystick]),
    - the body of the polling loop of [readJoystick] and the loop itself,
      run over a finite sequence of polls,

    and proves the properties of the normalisation, of the edge detection
    and of the dispatch.

    Conventions.  A Go [int] and an [int16] are integers in [Z]; the
    wrap-around of [int16] is written out ([int16], [neg16]).  A [uint]
    and the [uint32] button mask are naturals in [N].  A slice is a
    [list]; indexing it out of range is a run-time panic, which the
    effect type [M] records as a missing result. *)

From Stdlib Require Import ZArith NArith List String Bool Lia.
Import ListNotations.
Open Scope Z_scope.

(** ** Constants of the source *)

(** Sticks ([iota] block). *)
Definition axLeftX : nat := 0.
Definition axLeftY : nat := 1.
Definition axRightX : nat := 2.
Definition axRightY : nat := 3.
Definition axL1 : nat := 4.
Definition axL2 : nat := 5.
Definition axR1 : nat := 6.
Definition axR2 : nat := 7.

(** Buttons ([iota] block). *)
Definition btnX : nat := 0.
Definition btnCircle : nat := 1.
Definition btnTriangle : nat := 2.
Definition btnSquare : nat := 3.
Definition btnL1 : nat := 4.
Definition btnL2 : nat := 5.
Definition btnL3 : nat := 6.
Definition btnR1 : nat := 7.
Definition btnR2 : nat := 8.
Definition btnR3 : nat := 9.
Definition btnDL : nat := 10.
Definition btnDR : nat := 11.
Definition btnDU : nat := 12.
Definition btnDD : nat := 13.
Definition btnUnknown : nat := 14.

(** Features. *)
Definition flipsEnabled : nat := 0.

Definition deadZone : Z := 2000.

(** ** Go slices written as keyed composite literals

    [[]uint{btnX: 0, btnR2: 7}] has length (largest key + 1); the
    elements without a key hold the zero value. *)

Fixpoint setIndex {A : Type} (zero : A) (l : list A) (i : nat) (v : A) : list A :=
  match i, l with
  | O, [] => [v]
  | O, _ :: t => v :: t
  | S i', [] => zero :: setIndex zero [] i' v
  | S i', h :: t => h :: setIndex zero t i' v
  end.

Definition sliceLit {A : Type} (zero : A) (kvs : list (nat * A)) : list A :=
  fold_left (fun l kv => setIndex zero l (fst kv) (snd kv)) kvs [].

(** ** Device profiles *)

Record joystickConfig : Type := {
  axes : list Z;        (* []int  *)
  buttons : list N;     (* []uint *)
  features : list bool  (* []bool *)
}.

Definition dualShock4Config : joystickConfig := {|
  axes := sliceLit 0
    [(axLeftX, 0); (axLeftY, 1); (axRightX, 3); (axRightY, 4)];
  buttons := sliceLit 0%N
    [(btnX, 0); (btnCircle, 1); (btnTriangle, 2); (btnSquare, 3); (btnL1, 4);
     (btnL2, 6); (btnR1, 5); (btnR2, 7)]%N;
  features := sliceLit false [(flipsEnabled, false)]
|}.

Definition eightBitDoSF30Pro : joystickConfig := {|
  axes := sliceLit 0
    [(axLeftX, 0); (axLeftY, 1); (axRightX, 2); (axRightY, 3)];
  buttons := sliceLit 0%N
    [(btnX, 0); (btnCircle, 1); (btnTriangle, 3); (btnSquare, 2); (btnL1, 4);
     (btnL2, 6); (btnR1, 5); (btnR2, 7); (btnDL, 13); (btnDR, 14);
     (btnDU, 15); (btnDD, 16)]%N;
  features := sliceLit false [(flipsEnabled, true)]
|}.

Definition dualShock4ConfigWin : joystickConfig := {|
  axes := sliceLit 0
    [(axLeftX, 0); (axLeftY, 1); (axRightX, 2); (axRightY, 3)];
  buttons := sliceLit 0%N
    [(btnX, 1); (btnCircle, 2); (btnTriangle, 3); (btnSquare, 0); (btnL1, 4);
     (btnL2, 6); (btnR1, 5); (btnR2, 7)]%N;
  features := sliceLit false [(flipsEnabled, false)]
|}.

Definition tflightHotasXConfig : joystickConfig := {|
  axes := sliceLit 0
    [(axLeftX, 4); (axLeftY, 2); (axRightX, 0); (axRightY, 1)];
  buttons := sliceLit 0%N
    [(btnR1, 0); (btnL1, 1); (btnR3, 2); (btnL3, 3); (btnSquare, 4); (btnX, 5);
     (btnCircle, 6); (btnTriangle, 7); (btnR2, 8); (btnL2, 9)]%N;
  features := sliceLit false [(flipsEnabled, false)]
|}.

Definition tflightSteamControllerConfig : joystickConfig := {|
  axes := sliceLit 0
    [(axLeftX, 0); (axLeftY, 1); (axRightX, 2); (axRightY, 3)];
  buttons := sliceLit 0%N
    [(btnR1, 7); (btnL1, 6); (btnR3, 14); (btnL3, 13); (btnSquare, 4); (btnX, 2);
     (btnCircle, 3); (btnTriangle, 5); (btnR2, 9); (btnL2, 8);
     (btnDL, 19); (btnDR, 20); (btnDU, 17); (btnDD, 18)]%N;
  features := sliceLit false [(flipsEnabled, true)]
|}.

(** The profiles [setupJoystick] can install. *)
Definition selectable : list joystickConfig :=
  [dualShock4Config; dualShock4ConfigWin; tflightHotasXConfig;
   eightBitDoSF30Pro; tflightSteamControllerConfig].

(** ** Profile selection: [setupJoystick]

    [log.Fatalln] and [log.Fatalf] print a message and leave the
    process; the three calls of the function are the three [Fatal]
    values.  [joystick.Open] belongs to an imported package and is an
    argument.  On success the function has set the globals [js] and
    [jsConfig] and returns [true]. *)

(** A handle of an opened joystick. *)
Definition Joystick : Type := Z.

Inductive Fatal : Type :=
| NoJoystickTypeSupplied               (* "No joystick type supplied, ..." *)
| CouldNotOpen (id : Z)                (* "Could not open specified joystick ID:%d" *)
| UnknownJoystickType (jsType : string). (* "Unknown joystick type <%s> supplied" *)

Inductive Setup : Type :=
| Exit (f : Fatal)
| Ready (js : Joystick) (jsConfig : joystickConfig) (ret : bool).

Definition setupJoystick (jsTypeFlag : option string) (GOOS : string)
    (Open : Z -> option Joystick) (id : Z) : Setup :=
  match jsTypeFlag with
  | None => Exit NoJoystickTypeSupplied
  | Some jsType =>
      if String.eqb jsType "" then Exit NoJoystickTypeSupplied
      else
        match Open id with
        | None => Exit (CouldNotOpen id)
        | Some js =>
            if String.eqb jsType "DualShock4" then
              if String.eqb GOOS "windows"
              then Ready js dualShock4ConfigWin true
              else Ready js dualShock4Config true
            else if String.eqb jsType "HotasX" then
              Ready js tflightHotasXConfig true
            else if String.eqb jsType "EightBitDoSF30Pro" then
              Ready js eightBitDoSF30Pro true
            else if String.eqb jsType "SteamController" then
              Ready js tflightSteamControllerConfig true
            else Exit (UnknownJoystickType jsType)
        end
  end.

(** The case labels of the switch on the joystick type. *)
Definition jsTypes : list string :=
  ["DualShock4"; "HotasX"; "EightBitDoSF30Pro"; "SteamController"]%string.

(** ** Machine arithmetic *)

(** Conversion of a Go [int] to [int16]: the low 16 bits, signed. *)
Definition int16 (x : Z) : Z := (x + 32768) mod 65536 - 32768.

(** Unary minus on an [int16]. *)
Definition neg16 (x : Z) : Z := int16 (- x).

(** [x / d] on [int16]: the quotient truncates toward zero. *)
Definition quo16 (x d : Z) : Z := int16 (Z.quot x d).

Definition intAbs (x : Z) : Z :=
  if x <? 0 then neg16 x else x.

(** ** Collaborators' data *)

(** Modelled from the spec: the raw controller state, [joystick.State]
    of the imported joystick package, is missing from the sources.  It
    is an ordered sequence of raw axis values (Go [[]int]) and a single
    button bitmask, one bit per physical button (a [uint32]). *)
Record State : Type := {
  AxisData : list Z;
  Buttons : N
}.

(** Modelled from the spec: the stick output, [tello.StickMessage] of
    the imported tello package, is missing from the sources.  It has
    four signed 16-bit fields. *)
Record StickMessage : Type := {
  Rx : Z;
  Ry : Z;
  Lx : Z;
  Ly : Z
}.

Definition zeroState : State := {| AxisData := []; Buttons := 0%N |}.
Definition zeroSticks : StickMessage := {| Rx := 0; Ry := 0; Lx := 0; Ly := 0 |}.

(** [1<<b] takes the type of the mask it is and-ed with, [uint32]. *)
Definition shl1 (b : N) : N := (N.shiftl 1 b mod 2 ^ 32)%N.

(** [st.Buttons&(1<<b) != 0]. *)
Definition isDown (st : State) (b : N) : bool :=
  negb (N.land (Buttons st) (shl1 b) =? 0)%N.

(** ** Effects of one poll cycle *)

Inductive DroneCall : Type :=
| SetSlowMode | Bounce | SetFastMode | GetFlightData
| PalmLand | ThrowTakeOff | TakeOff | TakePicture | Land
| LeftFlip | RightFlip | ForwardFlip | BackFlip.

Inductive Duration : Type :=
| Ms150           (* 150 * time.Millisecond *)
| UpdatePeriodMs. (* the configured update period *)

Inductive Event : Type :=
| LogPrintf (err : string)       (* log.Printf("Error reading joystick: ...") *)
| Println (s : string)           (* fmt.Println *)
| PrintfJS (sm : StickMessage)   (* fmt.Printf("JS: Lx: ...") *)
| ChanSend (sm : StickMessage)   (* stickChan <- sm *)
| Drone (c : DroneCall)          (* a call on [drone] *)
| Sleep (d : Duration).          (* time.Sleep *)

(** A computation yields the events it performed and, unless it
    panicked, a result. *)
Definition M (A : Type) : Type := (list Event * option A)%type.

Definition ret {A : Type} (a : A) : M A := ([], Some a).

Definition bind {A B : Type} (m : M A) (f : A -> M B) : M B :=
  match m with
  | (t, None) => (t, None)
  | (t, Some a) => let r := f a in (t ++ fst r, snd r)
  end.

Definition emit (e : Event) : M unit := ([e], Some tt).

Definition trace {A : Type} (m : M A) : list Event := fst m.
Definition result {A : Type} (m : M A) : option A := snd m.

Declare Scope go_scope.
Delimit Scope go_scope with go.
Notation "x <- m ;; k" := (bind m (fun x => k))
  (at level 61, m at next level, right associativity) : go_scope.
Notation "m ;; k" := (bind m (fun _ => k))
  (at level 61, right associativity) : go_scope.
Open Scope go_scope.

(** [s[i]] with a constant index. *)
Definition index {A : Type} (s : list A) (i : nat) : M A := ([], nth_error s i).

(** [s[i]] with an [int] index: a negative index panics as well. *)
Definition indexInt {A : Type} (s : list A) (i : Z) : M A :=
  if i <? 0 then ([], None) else ([], nth_error s (Z.to_nat i)).

Definition when (c : bool) (m : M unit) : M unit := if c then m else ret tt.

(** ** The polling loop: [readJoystick]

    The source writes the lookups and the edge test out at every use;
    here each form is named once. *)

(** [jsState.AxisData[jsConfig.axes[ax]]]. *)
Definition rawAxis (cfg : joystickConfig) (jsState : State) (ax : nat) : M Z :=
  i <- index (axes cfg) ax ;;
  indexInt (AxisData jsState) i.

(** [if raw == 32768 { v = 32767 } else { v = int16(raw) }]. *)
Definition narrowX (raw : Z) : Z :=
  if raw =? 32768 then 32767 else int16 raw.

(** [if raw == 32768 { v = -32767 } else { v = -int16(raw) }]. *)
Definition narrowY (raw : Z) : Z :=
  if raw =? 32768 then -32767 else neg16 (int16 raw).

(** [if intAbs(v) < deadZone { v = 0 }]. *)
Definition applyDeadZone (v : Z) : Z :=
  if intAbs v <? deadZone then 0 else v.

(** [jsState.Buttons&(1<<bit) != 0 && prevState.Buttons&(1<<bit) == 0]. *)
Definition pressed (jsState prevState : State) (bit : N) : bool :=
  isDown jsState bit && negb (isDown prevState bit).

(** [if jsState.Buttons&(1<<jsConfig.buttons[b]) != 0 &&
        prevState.Buttons&(1<<jsConfig.buttons[b]) == 0 { body }]. *)
Definition onPress (cfg : joystickConfig) (jsState prevState : State)
    (b : nat) (body : M unit) : M unit :=
  bit <- index (buttons cfg) b ;;
  when (pressed jsState prevState bit) body.

(** What [js.Read] and the drone give the loop in one cycle. *)
Record Poll : Type := {
  readState : State;        (* jsState of [js.Read()] *)
  readErr : option string;  (* err of [js.Read()] *)
  flying : bool             (* drone.GetFlightData().Flying *)
}.

(** The variables of [readJoystick] that outlive a cycle. *)
Record Vars : Type := {
  sm : StickMessage;
  prevState : State
}.

Definition initVars : Vars := {| sm := zeroSticks; prevState := zeroState |}.

Definition setRx (s : StickMessage) (x : Z) : StickMessage :=
  {| Rx := x; Ry := Ry s; Lx := Lx s; Ly := Ly s |}.
Definition setRy (s : StickMessage) (x : Z) : StickMessage :=
  {| Rx := Rx s; Ry := x; Lx := Lx s; Ly := Ly s |}.
Definition setLx (s : StickMessage) (x : Z) : StickMessage :=
  {| Rx := Rx s; Ry := Ry s; Lx := x; Ly := Ly s |}.
Definition setLy (s : StickMessage) (x : Z) : StickMessage :=
  {| Rx := Rx s; Ry := Ry s; Lx := Lx s; Ly := x |}.

(** The four [sm.F /= 3] of precision mode. *)
Definition thirds (s : StickMessage) : StickMessage :=
  let s := setLx s (quo16 (Lx s) 3) in
  let s := setLy s (quo16 (Ly s) 3) in
  let s := setRx s (quo16 (Rx s) 3) in
  setRy s (quo16 (Ry s) 3).

(** The stick part of an iteration: the four axes, the dead zone and
    precision mode.  The left stick feeds [Rx], [Ry] and the right stick
    [Lx], [Ly]. *)
Definition sticks (cfg : joystickConfig) (test : bool) (s : StickMessage)
    (jsState prev : State) : M StickMessage :=
  raw <- rawAxis cfg jsState axLeftX ;;
  let s := setRx s (narrowX raw) in
  raw <- rawAxis cfg jsState axLeftY ;;
  let s := setRy s (narrowY raw) in
  raw <- rawAxis cfg jsState axRightX ;;
  let s := setLx s (narrowX raw) in
  raw <- rawAxis cfg jsState axRightY ;;
  let s := setLy s (narrowY raw) in
  (* dead zone *)
  let s := setLx s (applyDeadZone (Lx s)) in
  let s := setLy s (applyDeadZone (Ly s)) in
  let s := setRx s (applyDeadZone (Rx s)) in
  let s := setRy s (applyDeadZone (Ry s)) in
  (* R2 *)
  r2 <- index (buttons cfg) btnR2 ;;
  if isDown jsState r2 then
    when (test && negb (isDown prev r2)) (emit (Println "R2 pressed")) ;;
    ret (thirds s)
  else
    when (test && isDown prev r2) (emit (Println "R2 released")) ;;
    ret s.

(** [if test { print the sticks unless all are zero } else { stickChan <- sm }]. *)
Definition deliver (test : bool) (s : StickMessage) : M unit :=
  if test then
    when (negb (Lx s =? 0) || negb (Ly s =? 0) || negb (Rx s =? 0) || negb (Ry s =? 0))
         (emit (PrintfJS s))
  else emit (ChanSend s).

(** The four D-pad tests of the flip feature. *)
Definition flips (cfg : joystickConfig) (test : bool) (jsState prev : State) : M unit :=
  onPress cfg jsState prev btnDL
    (if test then emit (Println "D-Pad Left pressed") else emit (Drone LeftFlip)) ;;
  onPress cfg jsState prev btnDR
    (if test then emit (Println "D-Pad Right pressed") else emit (Drone RightFlip)) ;;
  onPress cfg jsState prev btnDU
    (if test then emit (Println "D-Pad Up pressed") else emit (Drone ForwardFlip)) ;;
  onPress cfg jsState prev btnDD
    (if test then emit (Println "D-Pad Down pressed") else emit (Drone BackFlip)).

(** The button part of an iteration, from the L1 test to the flip
    feature. *)
Definition dispatch (cfg : joystickConfig) (test : bool) (jsState prev : State)
    (isFlying : bool) : M unit :=
  onPress cfg jsState prev btnL1
    (if test then emit (Println "L1 pressed") else emit (Drone SetSlowMode)) ;;
  onPress cfg jsState prev btnL2
    (if test then emit (Println "L2 pressed") else emit (Drone Bounce)) ;;
  onPress cfg jsState prev btnR1
    (if test then emit (Println "R1 pressed") else emit (Drone SetFastMode)) ;;
  onPress cfg jsState prev btnL3
    (when test (emit (Println "L3 pressed"))) ;;
  onPress cfg jsState prev btnR3
    (when test (emit (Println "R3 pressed"))) ;;
  onPress cfg jsState prev btnSquare
    (if test then emit (Println "⌑ pressed")
     else emit (Drone GetFlightData) ;;
          if isFlying then emit (Drone PalmLand) else emit (Drone ThrowTakeOff)) ;;
  onPress cfg jsState prev btnTriangle
    (if test then emit (Println "△ pressed") else emit (Drone TakeOff)) ;;
  onPress cfg jsState prev btnCircle
    (if test then emit (Println "○ pressed") else emit (Drone TakePicture)) ;;
  onPress cfg jsState prev btnX
    (if test then emit (Println "╳ pressed") else emit (Drone Land)) ;;
  enabled <- index (features cfg) flipsEnabled ;;
  when enabled (flips cfg test jsState prev).

(** One iteration of the [for] loop. *)
Definition cycle (cfg : joystickConfig) (test : bool) (v : Vars) (p : Poll) : M Vars :=
  let jsState := readState p in
  match readErr p with
  | Some e => emit (LogPrintf e)
  | None => ret tt
  end ;;
  s <- sticks cfg test (sm v) jsState (prevState v) ;;
  deliver test s ;;
  dispatch cfg test jsState (prevState v) (flying p) ;;
  (* prevState = jsState *)
  emit (Sleep (if test then Ms150 else UpdatePeriodMs)) ;;
  ret {| sm := s; prevState := jsState |}.

(** The first cycles of the endless [for] loop, one per poll. *)
Fixpoint loop (cfg : joystickConfig) (test : bool) (v : Vars) (polls : list Poll) : M Vars :=
  match polls with
  | [] => ret v
  | p :: rest => v' <- cycle cfg test v p ;; loop cfg test v' rest
  end.

Definition readJoystick (cfg : joystickConfig) (test : bool) (polls : list Poll) : M Vars :=
  loop cfg test initVars polls.

(** ** Observations on a trace *)

(** Number of events of a trace that satisfy [p]. *)
Definition count (p : Event -> bool) (t : list Event) : nat :=
  List.length (filter p t).

(** The stick messages put on [stickChan]. *)
Fixpoint sent (t : list Event) : list StickMessage :=
  match t with
  | [] => []
  | ChanSend s :: r => s :: sent r
  | _ :: r => sent r
  end.

(** The stick messages printed in test mode. *)
Fixpoint printed (t : list Event) : list StickMessage :=
  match t with
  | [] => []
  | PrintfJS s :: r => s :: printed r
  | _ :: r => printed r
  end.

Definition DroneCall_eqb (a b : DroneCall) : bool :=
  match a, b with
  | SetSlowMode, SetSlowMode | Bounce, Bounce | SetFastMode, SetFastMode
  | GetFlightData, GetFlightData | PalmLand, PalmLand
  | ThrowTakeOff, ThrowTakeOff | TakeOff, TakeOff | TakePicture, TakePicture
  | Land, Land | LeftFlip, LeftFlip | RightFlip, RightFlip
  | ForwardFlip, ForwardFlip | BackFlip, BackFlip => true
  | _, _ => false
  end.

(** The event is the drone call [c]. *)
Definition isCall (c : DroneCall) (e : Event) : bool :=
  match e with
  | Drone c' => DroneCall_eqb c' c
  | _ => false
  end.

(** The event carries a stick message. *)
Definition isStick (e : Event) : bool :=
  match e with
  | ChanSend _ | PrintfJS _ => true
  | _ => false
  end.

(** The event is any drone call. *)
Definition isDrone (e : Event) : bool :=
  match e with
  | Drone _ => true
  | _ => false
  end.



(** The line test mode prints on a press of button [b]. *)
Definition pressText (b : nat) : option string :=
  if (b =? btnR2)%nat then Some "R2 pressed"%string
  else if (b =? btnL1)%nat then Some "L1 pressed"%string
  else if (b =? btnL2)%nat then Some "L2 pressed"%string
  else if (b =? btnR1)%nat then Some "R1 pressed"%string
  else if (b =? btnL3)%nat then Some "L3 pressed"%string
  else if (b =? btnR3)%nat then Some "R3 pressed"%string
  else if (b =? btnSquare)%nat then Some "⌑ pressed"%string
  else if (b =? btnTriangle)%nat then Some "△ pressed"%string
  else if (b =? btnCircle)%nat then Some "○ pressed"%string
  else if (b =? btnX)%nat then Some "╳ pressed"%string
  else if (b =? btnDL)%nat then Some "D-Pad Left pressed"%string
  else if (b =? btnDR)%nat then Some "D-Pad Right pressed"%string
  else if (b =? btnDU)%nat then Some "D-Pad Up pressed"%string
  else if (b =? btnDD)%nat then Some "D-Pad Down pressed"%string
  else None.

(** The drone calls a press of button [b] can make in operational mode. *)
Definition pressCalls (b : nat) : list DroneCall :=
  if (b =? btnL1)%nat then [SetSlowMode]
  else if (b =? btnL2)%nat then [Bounce]
  else if (b =? btnR1)%nat then [SetFastMode]
  else if (b =? btnSquare)%nat then [PalmLand; ThrowTakeOff]
  else if (b =? btnTriangle)%nat then [TakeOff]
  else if (b =? btnCircle)%nat then [TakePicture]
  else if (b =? btnX)%nat then [Land]
  else if (b =? btnDL)%nat then [LeftFlip]
  else if (b =? btnDR)%nat then [RightFlip]
  else if (b =? btnDU)%nat then [ForwardFlip]
  else if (b =? btnDD)%nat then [BackFlip]
  else [].

(** The pressed-edge event of button [b]: its line in test mode, its
    drone call otherwise. *)
Definition pressEvent (test : bool) (b : nat) (e : Event) : bool :=
  match e with
  | Println s =>
      test && match pressText b with
              | Some t => String.eqb s t
              | None => false
              end
  | Drone c => negb test && existsb (DroneCall_eqb c) (pressCalls b)
  | _ => false
  end.

(** The pressed-edge event of one of the buttons the loop tests after
    R3: Square, Triangle, Circle, X. *)
Definition lateEvent (test : bool) (e : Event) : bool :=
  pressEvent test btnSquare e || pressEvent test btnTriangle e
  || pressEvent test btnCircle e || pressEvent test btnX e.

(** The buttons whose press shows in the trace: all that the loop tests
    in test mode, those with an action otherwise; the D-pad only with
    the flip feature. *)
Definition dispatched (test enabled : bool) : list nat :=
  [btnL1; btnL2; btnR1; btnSquare; btnTriangle; btnCircle; btnX]
  ++ (if test then [btnR2; btnL3; btnR3] else [])
  ++ (if enabled then [btnDL; btnDR; btnDU; btnDD] else []).

(** The buttons the loop has an edge test for. *)
Definition tested : list nat :=
  [btnR2; btnL1; btnL2; btnR1; btnL3; btnR3; btnSquare; btnTriangle;
   btnCircle; btnX; btnDL; btnDR; btnDU; btnDD].

(** The entries of [jsConfig.buttons] an iteration reads. *)
Definition polled (cfg : joystickConfig) : list nat :=
  [btnR2; btnL1; btnL2; btnR1; btnL3; btnR3; btnSquare; btnTriangle;
   btnCircle; btnX]
  ++ match nth_error (features cfg) flipsEnabled with
     | Some true => [btnDL; btnDR; btnDU; btnDD]
     | _ => []
     end.

Definition mapped (cfg : joystickConfig) (b : nat) : bool :=
  match nth_error (buttons cfg) b with
  | Some _ => true
  | None => false
  end.

(** Every button lookup of an iteration is inside the table. *)
Definition buttonsInRange (cfg : joystickConfig) : bool :=
  forallb (mapped cfg) (polled cfg).

Definition hasAxis (cfg : joystickConfig) (jsState : State) (ax : nat) : bool :=
  match result (rawAxis cfg jsState ax) with
  | Some _ => true
  | None => false
  end.

(** Every lookup of an iteration is in range: the four axes, the
    buttons and the feature flag. *)
Definition inRange (cfg : joystickConfig) (jsState : State) : bool :=
  forallb (hasAxis cfg jsState) [axLeftX; axLeftY; axRightX; axRightY]
  && buttonsInRange cfg
  && match nth_error (features cfg) flipsEnabled with
     | Some _ => true
     | None => false
     end.

(** The edge test of button [b] holds; a button outside the table never
    gets as far. *)
Definition fires (cfg : joystickConfig) (jsState prev : State) (b : nat) : bool :=
  match nth_error (buttons cfg) b with
  | Some bit => pressed jsState prev bit
  | None => false
  end.

(** The stick message after the dead zone, from the four raw readings
    (left X, left Y, right X, right Y). *)
Definition filtered (lx ly rx ry : Z) : StickMessage :=
  {| Rx := applyDeadZone (narrowX lx); Ry := applyDeadZone (narrowY ly);
     Lx := applyDeadZone (narrowX rx); Ly := applyDeadZone (narrowY ry) |}.

Definition allZero (s : StickMessage) : bool :=
  (Lx s =? 0) && (Ly s =? 0) && (Rx s =? 0) && (Ry s =? 0).

(** Precision mode: the message is divided by three while R2 is down. *)
Definition scaled (jsState : State) (r2 : N) (s : StickMessage) : StickMessage :=
  if isDown jsState r2 then thirds s else s.

(** What the stick part prints about R2 in test mode. *)
Definition r2Lines (test : bool) (jsState prev : State) (r2 : N) : list Event :=
  if isDown jsState r2 then
    if test && negb (isDown prev r2) then [Println "R2 pressed"] else []
  else
    if test && isDown prev r2 then [Println "R2 released"] else [].

(** What an iteration logs about the read. *)
Definition logLines (p : Poll) : list Event :=
  match readErr p with
  | Some e => [LogPrintf e]
  | None => []
  end.

(** Events that only the stick part, the log and the sleep make are
    invisible to a predicate on button events. *)
Definition buttonOnly (q : Event -> bool) : Prop :=
  (forall e, q (LogPrintf e) = false) /\
  (forall s, q (PrintfJS s) = false) /\
  (forall s, q (ChanSend s) = false) /\
  (forall d, q (Sleep d) = false).

(** Rising edges of [bit] along successive states, after [prev]. *)
Fixpoint edges (bit : N) (prev : State) (sts : list State) : nat :=
  match sts with
  | [] => 0
  | st :: rest => ((if pressed st prev bit then 1 else 0) + edges bit st rest)%nat
  end.

Definition poll (ax : list Z) (b : N) (isFlying : bool) : Poll :=
  {| readState := {| AxisData := ax; Buttons := b |};
     readErr := None; flying := isFlying |}.

(** ** Listing the joysticks: [listJoysticks]

    [joystick.Open] and the methods [Name], [AxisCount], [ButtonCount]
    and [Close] of a joystick belong to the imported package: they are
    arguments, and the calls that act on the devices are events. *)

Inductive ListEvent : Type :=
| OpenCall (jsid : Z)              (* joystick.Open(jsid) *)
| PrintNone                        (* fmt.Println("No joysticks detected") *)
| PrintJoystick (jsid : Z) (name : string) (nAxes nButtons : Z)
                                   (* fmt.Printf("Joystick ID: %d: Name: ...") *)
| CloseCall (jsid : Z).            (* js.Close() *)

(** The iterations of [for jsid := ...; jsid < 10; jsid++] that are
    left, [n] of them, from [jsid] on. *)
Fixpoint listFrom (Open : Z -> option Joystick) (Name : Joystick -> string)
    (AxisCount ButtonCount : Joystick -> Z) (jsid : Z) (n : nat) : list ListEvent :=
  match n with
  | O => []
  | S n' =>
      OpenCall jsid ::
      match Open jsid with
      | None => if jsid =? 0 then [PrintNone] else []
      | Some js =>
          PrintJoystick jsid (Name js) (AxisCount js) (ButtonCount js) ::
          CloseCall jsid ::
          listFrom Open Name AxisCount ButtonCount (jsid + 1) n'
      end
  end.

Definition listJoysticks (Open : Z -> option Joystick) (Name : Joystick -> string)
    (AxisCount ButtonCount : Joystick -> Z) : list ListEvent :=
  listFrom Open Name AxisCount ButtonCount 0 10.

(** The ids of the joysticks printed, closed and tried, in order. *)
Fixpoint listedIds (t : list ListEvent) : list Z :=
  match t with
  | [] => []
  | PrintJoystick i _ _ _ :: r => i :: listedIds r
  | _ :: r => listedIds r
  end.

Fixpoint closedIds (t : list ListEvent) : list Z :=
  match t with
  | [] => []
  | CloseCall i :: r => i :: closedIds r
  | _ :: r => closedIds r
  end.

Fixpoint openedIds (t : list ListEvent) : list Z :=
  match t with
  | [] => []
  | OpenCall i :: r => i :: openedIds r
  | _ :: r => openedIds r
  end.

Fixpoint noneLines (t : list ListEvent) : nat :=
  match t with
  | [] => 0
  | PrintNone :: r => S (noneLines r)
  | _ :: r => noneLines r
  end.

(** The ids [0], [1], ..., [k - 1]. *)
Definition firstIds (k : nat) : list Z := map Z.of_nat (seq 0 k).

(** ** More observations on a trace *)

(** The drone calls of a trace, in order. *)
Fixpoint calls (t : list Event) : list DroneCall :=
  match t with
  | [] => []
  | Drone c :: r => c :: calls r
  | _ :: r => calls r
  end.

(** The sleeps of a trace, in order. *)
Fixpoint sleeps (t : list Event) : list Duration :=
  match t with
  | [] => []
  | Sleep d :: r => d :: sleeps r
  | _ :: r => sleeps r
  end.

(** The event is written on standard output. *)
Definition isPrint (e : Event) : bool :=
  match e with
  | Println _ | PrintfJS _ => true
  | _ => false
  end.

(** The event acts on the drone or on the stick channel. *)
Definition isAction (e : Event) : bool :=
  match e with
  | Drone _ | ChanSend _ => true
  | _ => false
  end.

Definition isSleep (e : Event) : bool :=
  match e with
  | Sleep _ => true
  | _ => false
  end.

(** The message an iteration computes from a state alone, if its stick
    lookups are in range. *)
Definition messageOf (cfg : joystickConfig) (jsState : State) : option StickMessage :=
  result (sticks cfg false zeroSticks jsState zeroState).

Definition isLog (e : Event) : bool :=
  match e with
  | LogPrintf _ => true
  | _ => false
  end.

Definition isLine (line : string) (e : Event) : bool :=
  match e with
  | Println s => String.eqb s line
  | _ => false
  end.

(** The read of the poll gave an error. *)
Definition hasErr (p : Poll) : bool :=
  match readErr p with
  | Some _ => true
  | None => false
  end.

(** The same poll with a read that gave no error. *)
Definition withoutErr (p : Poll) : Poll :=
  {| readState := readState p; readErr := None; flying := flying p |}.

(** The drone calls of the edge test of button [b] in operational
    mode, as the source orders them. *)
Definition callsOf (cfg : joystickConfig) (jsState prev : State) (b : nat)
    (cs : list DroneCall) : list DroneCall :=
  if fires cfg jsState prev b then cs else [].

(** * Properties *)

(** ** The effect type *)

Lemma trace_bind {A B : Type} (m : M A) (f : A -> M B) :
  trace (bind m f) =
  trace m ++ match result m with
             | Some a => trace (f a)
             | None => []
             end.
Proof.
  destruct m as [t [a|]]; unfold trace, result; simpl.
  - reflexivity.
  - now rewrite app_nil_r.
Qed.

Lemma result_bind {A B : Type} (m : M A) (f : A -> M B) :
  result (bind m f) =
  match result m with
  | Some a => result (f a)
  | None => None
  end.
Proof. destruct m as [t [a|]]; reflexivity. Qed.

Lemma bind_run {A B : Type} (m : M A) (f : A -> M B) (t : list Event) (a : A) :
  m = (t, Some a) -> bind m f = (t ++ trace (f a), result (f a)).
Proof. intros ->. reflexivity. Qed.

Lemma bind_panic {A B : Type} (m : M A) (f : A -> M B) (t : list Event) :
  m = (t, None) -> bind m f = (t, None).
Proof. intros ->. reflexivity. Qed.

Lemma M_eta {A : Type} (m : M A) : m = (trace m, result m).
Proof. now destruct m. Qed.

Lemma count_app (p : Event -> bool) (t u : list Event) :
  count p (t ++ u) = (count p t + count p u)%nat.
Proof. unfold count. now rewrite filter_app, length_app. Qed.

Lemma count_bind {A B : Type} (p : Event -> bool) (m : M A) (f : A -> M B) :
  count p (trace (bind m f)) =
  (count p (trace m) + match result m with
                       | Some a => count p (trace (f a))
                       | None => 0
                       end)%nat.
Proof.
  rewrite trace_bind, count_app. now destruct (result m).
Qed.

Lemma count_bind_0 {A B : Type} (p : Event -> bool) (m : M A) (f : A -> M B) :
  count p (trace m) = 0%nat ->
  (forall a, count p (trace (f a)) = 0%nat) ->
  count p (trace (bind m f)) = 0%nat.
Proof.
  intros Hm Hf. rewrite count_bind, Hm.
  destruct (result m); [apply Hf | reflexivity].
Qed.

Lemma count_when (p : Event -> bool) (c : bool) (m : M unit) :
  count p (trace (when c m)) = if c then count p (trace m) else 0%nat.
Proof. now destruct c. Qed.

Lemma count_emit (p : Event -> bool) (e : Event) :
  count p (trace (emit e)) = if p e then 1%nat else 0%nat.
Proof. unfold count; simpl. now destruct (p e). Qed.

Lemma count_index {A : Type} (p : Event -> bool) (s : list A) (i : nat) :
  count p (trace (index s i)) = 0%nat.
Proof. reflexivity. Qed.

Lemma sent_app (t u : list Event) : sent (t ++ u) = sent t ++ sent u.
Proof.
  induction t as [|e t IH]; simpl; [reflexivity|].
  destruct e; simpl; now rewrite IH.
Qed.

Lemma printed_app (t u : list Event) : printed (t ++ u) = printed t ++ printed u.
Proof.
  induction t as [|e t IH]; simpl; [reflexivity|].
  destruct e; simpl; now rewrite IH.
Qed.

(** A trace without stick events sends and prints no stick message. *)
Lemma no_stick (t : list Event) :
  count isStick t = 0%nat -> sent t = [] /\ printed t = [].
Proof.
  unfold count. induction t as [|e t IH]; simpl; [easy|].
  destruct e; simpl; try discriminate; exact IH.
Qed.

(** ** Lookups *)

Lemma rawAxis_trace (cfg : joystickConfig) (st : State) (ax : nat) :
  trace (rawAxis cfg st ax) = [].
Proof.
  unfold rawAxis, index, indexInt.
  destruct (nth_error (axes cfg) ax) as [i|]; simpl; [|reflexivity].
  now destruct (i <? 0).
Qed.

Lemma rawAxis_run (cfg : joystickConfig) (st : State) (ax : nat) (raw : Z) :
  result (rawAxis cfg st ax) = Some raw -> rawAxis cfg st ax = ([], Some raw).
Proof.
  intros H. rewrite (M_eta (rawAxis cfg st ax)), rawAxis_trace, H. reflexivity.
Qed.

Lemma index_run {A : Type} (s : list A) (i : nat) (a : A) :
  nth_error s i = Some a -> index s i = ([], Some a).
Proof. unfold index. now intros ->. Qed.

Lemma onPress_run (cfg : joystickConfig) (st prev : State) (b : nat) (bit : N)
    (body : M unit) :
  nth_error (buttons cfg) b = Some bit ->
  onPress cfg st prev b body = when (pressed st prev bit) body.
Proof.
  intros H. unfold onPress. rewrite (bind_run _ _ _ _ (index_run _ _ _ H)).
  simpl. now destruct (when (pressed st prev bit) body).
Qed.

Lemma onPress_panic (cfg : joystickConfig) (st prev : State) (b : nat)
    (body : M unit) :
  nth_error (buttons cfg) b = None ->
  onPress cfg st prev b body = ([], None).
Proof. intros H. unfold onPress, index. now rewrite H. Qed.

Lemma count_onPress_0 (p : Event -> bool) (cfg : joystickConfig)
    (st prev : State) (b : nat) (body : M unit) :
  count p (trace body) = 0%nat ->
  count p (trace (onPress cfg st prev b body)) = 0%nat.
Proof.
  intros H. destruct (nth_error (buttons cfg) b) as [bit|] eqn:E.
  - rewrite (onPress_run _ _ _ _ _ _ E), count_when, H. now destruct pressed.
  - now rewrite (onPress_panic _ _ _ _ _ E).
Qed.

(** ** int16 arithmetic *)

Lemma int16_range (x : Z) : -32768 <= int16 x <= 32767.
Proof. unfold int16. pose proof (Z.mod_pos_bound (x + 32768) 65536). lia. Qed.

Lemma int16_small (x : Z) : -32768 <= x <= 32767 -> int16 x = x.
Proof. intros H. unfold int16. rewrite Z.mod_small; lia. Qed.

Lemma int16_wrap (m : Z) : 32768 <= m <= 65535 -> int16 m = m - 65536.
Proof.
  intros H. unfold int16.
  replace (m + 32768) with ((m - 32768) + 1 * 65536) by lia.
  rewrite Z.mod_add by lia. rewrite Z.mod_small; lia.
Qed.

Lemma narrowX_range (raw : Z) : -32768 <= narrowX raw <= 32767.
Proof.
  unfold narrowX. destruct (raw =? 32768); [lia | apply int16_range].
Qed.

Lemma narrowY_range (raw : Z) : -32768 <= narrowY raw <= 32767.
Proof.
  unfold narrowY, neg16. destruct (raw =? 32768); [lia | apply int16_range].
Qed.

Lemma intAbs_small (v : Z) : Z.abs v < 2000 -> intAbs v = Z.abs v.
Proof.
  intros H. unfold intAbs, neg16. destruct (Z.ltb_spec v 0).
  - rewrite int16_small; lia.
  - lia.
Qed.

Lemma applyDeadZone_zero (v : Z) : Z.abs v < 2000 -> applyDeadZone v = 0.
Proof.
  intros H. unfold applyDeadZone, deadZone. rewrite (intAbs_small v H).
  destruct (Z.ltb_spec (Z.abs v) 2000); [reflexivity | lia].
Qed.

Lemma applyDeadZone_keep (v : Z) :
  2000 <= Z.abs v <= 32767 -> applyDeadZone v = v.
Proof.
  intros H. unfold applyDeadZone, deadZone, intAbs, neg16.
  destruct (Z.ltb_spec v 0).
  - rewrite int16_small by lia.
    destruct (Z.ltb_spec (- v) 2000); [lia | reflexivity].
  - destruct (Z.ltb_spec v 2000); [lia | reflexivity].
Qed.

Lemma applyDeadZone_range (v : Z) :
  -32768 <= v <= 32767 -> -32768 <= applyDeadZone v <= 32767.
Proof. intros H. unfold applyDeadZone. destruct (_ <? _); lia. Qed.

Lemma quo16_quot (x : Z) : -32768 <= x <= 32767 -> quo16 x 3 = Z.quot x 3.
Proof.
  intros H. unfold quo16. apply int16_small.
  pose proof (Z.quot_le_mono x 32767 3). pose proof (Z.quot_le_mono (-32768) x 3).
  change (32767 ÷ 3) with 10922 in *. change (-32768 ÷ 3) with (-10922) in *. lia.
Qed.

(** ** One iteration with its lookups in range *)

(** Goals [count p (trace m) = 0], by the structure of [m]. *)
Ltac silent :=
  repeat first
    [ reflexivity
    | apply count_bind_0; [ | intros ]
    | apply count_onPress_0
    | rewrite count_when
    | rewrite count_emit
    | match goal with
      | |- context [if ?c then _ else _] => destruct c
      end ].

Lemma deliver_trace (test : bool) (s : StickMessage) :
  trace (deliver test s) =
  if test then (if allZero s then [] else [PrintfJS s]) else [ChanSend s].
Proof.
  unfold deliver, allZero. destruct test; [|reflexivity].
  destruct (Lx s =? 0), (Ly s =? 0), (Rx s =? 0), (Ry s =? 0); reflexivity.
Qed.

Lemma deliver_result (test : bool) (s : StickMessage) :
  result (deliver test s) = Some tt.
Proof.
  unfold deliver. destruct test; [|reflexivity].
  now destruct (_ || _).
Qed.

Lemma flips_no_stick (cfg : joystickConfig) (test : bool) (st prev : State) :
  count isStick (trace (flips cfg test st prev)) = 0%nat.
Proof. unfold flips. silent. Qed.

Lemma dispatch_no_stick (cfg : joystickConfig) (test : bool) (st prev : State)
    (fl : bool) :
  count isStick (trace (dispatch cfg test st prev fl)) = 0%nat.
Proof. unfold dispatch. silent. Qed.

Section Cycle.

Variables (cfg : joystickConfig) (v : Vars) (p : Poll).
Variables (lx ly rx ry : Z) (r2 : N).
Hypothesis HLX : result (rawAxis cfg (readState p) axLeftX) = Some lx.
Hypothesis HLY : result (rawAxis cfg (readState p) axLeftY) = Some ly.
Hypothesis HRX : result (rawAxis cfg (readState p) axRightX) = Some rx.
Hypothesis HRY : result (rawAxis cfg (readState p) axRightY) = Some ry.
Hypothesis HR2 : nth_error (buttons cfg) btnR2 = Some r2.

Lemma sticks_run (test : bool) (s0 : StickMessage) :
  sticks cfg test s0 (readState p) (prevState v) =
  (r2Lines test (readState p) (prevState v) r2,
   Some (scaled (readState p) r2 (filtered lx ly rx ry))).
Proof.
  unfold sticks.
  rewrite (bind_run _ _ _ _ (rawAxis_run _ _ _ _ HLX)).
  rewrite (bind_run _ _ _ _ (rawAxis_run _ _ _ _ HLY)).
  rewrite (bind_run _ _ _ _ (rawAxis_run _ _ _ _ HRX)).
  rewrite (bind_run _ _ _ _ (rawAxis_run _ _ _ _ HRY)).
  rewrite (bind_run _ _ _ _ (index_run _ _ _ HR2)).
  unfold scaled, r2Lines, filtered. simpl.
  destruct (isDown (readState p) r2); simpl.
  - destruct (test && negb (isDown (prevState v) r2)); reflexivity.
  - destruct (test && isDown (prevState v) r2); reflexivity.
Qed.

Lemma r2Lines_no_stick (test : bool) :
  count isStick (r2Lines test (readState p) (prevState v) r2) = 0%nat.
Proof.
  unfold r2Lines.
  destruct (isDown (readState p) r2), test, (isDown (prevState v) r2);
    reflexivity.
Qed.

(** The trace and the result of the iteration, up to the button
    part. *)
Lemma cycle_run (test : bool) :
  cycle cfg test v p =
  (logLines p
   ++ r2Lines test (readState p) (prevState v) r2
   ++ trace (deliver test (scaled (readState p) r2 (filtered lx ly rx ry)))
   ++ trace (dispatch cfg test (readState p) (prevState v) (flying p))
   ++ match result (dispatch cfg test (readState p) (prevState v) (flying p)) with
      | Some _ => [Sleep (if test then Ms150 else UpdatePeriodMs)]
      | None => []
      end,
   match result (dispatch cfg test (readState p) (prevState v) (flying p)) with
   | Some _ => Some {| sm := scaled (readState p) r2 (filtered lx ly rx ry);
                       prevState := readState p |}
   | None => None
   end).
Proof.
  unfold cycle.
  assert (HL : match readErr p with
               | Some e => emit (LogPrintf e)
               | None => ret tt
               end = (logLines p, Some tt))
    by (unfold logLines; now destruct (readErr p)).
  rewrite (bind_run _ _ _ _ HL).
  rewrite (bind_run _ _ _ _ (sticks_run test (sm v))).
  unfold trace at 1 2, result at 1 2. cbn [fst snd].
  change (fst ?m) with (trace m).
  rewrite trace_bind, result_bind, deliver_result.
  rewrite trace_bind, result_bind.
  destruct (result (dispatch _ _ _ _ _)) as [[]|]; reflexivity.
Qed.

(** Operational mode puts exactly the message on the channel, also
    when a later lookup panics. *)
Lemma cycle_sent :
  sent (trace (cycle cfg false v p)) =
  [scaled (readState p) r2 (filtered lx ly rx ry)].
Proof.
  rewrite cycle_run. unfold trace at 1. cbn [fst].
  rewrite !sent_app, deliver_trace.
  destruct (no_stick _ (dispatch_no_stick cfg false (readState p) (prevState v) (flying p)))
    as [-> _].
  destruct (no_stick _ (r2Lines_no_stick false)) as [-> _].
  assert (sent (logLines p) = []) as -> by (unfold logLines; now destruct (readErr p)).
  simpl. now destruct (result (dispatch _ _ _ _ _)).
Qed.

(** Test mode prints the message unless it is all zero. *)
Lemma cycle_printed :
  printed (trace (cycle cfg true v p)) =
  if allZero (scaled (readState p) r2 (filtered lx ly rx ry)) then []
  else [scaled (readState p) r2 (filtered lx ly rx ry)].
Proof.
  rewrite cycle_run. unfold trace at 1. cbn [fst].
  rewrite !printed_app, deliver_trace.
  destruct (no_stick _ (dispatch_no_stick cfg true (readState p) (prevState v) (flying p)))
    as [_ ->].
  destruct (no_stick _ (r2Lines_no_stick true)) as [_ ->].
  assert (printed (logLines p) = []) as -> by (unfold logLines; now destruct (readErr p)).
  simpl. destruct (allZero _); simpl; now destruct (result (dispatch _ _ _ _ _)).
Qed.

End Cycle.

(** ** The fields of the delivered message *)

Lemma filtered_range (lx ly rx ry : Z) :
  let f := filtered lx ly rx ry in
  (-32768 <= Rx f <= 32767) /\ (-32768 <= Ry f <= 32767) /\
  (-32768 <= Lx f <= 32767) /\ (-32768 <= Ly f <= 32767).
Proof.
  simpl. repeat split;
    first [ apply applyDeadZone_range, narrowX_range
          | apply applyDeadZone_range, narrowY_range ].
Qed.

(** Precision mode is the quotient truncated toward zero, field by
    field. *)
Lemma scaled_fields (st : State) (r2 : N) (lx ly rx ry : Z) :
  let k := fun x => if isDown st r2 then Z.quot x 3 else x in
  let s := scaled st r2 (filtered lx ly rx ry) in
  Rx s = k (applyDeadZone (narrowX lx)) /\
  Ry s = k (applyDeadZone (narrowY ly)) /\
  Lx s = k (applyDeadZone (narrowX rx)) /\
  Ly s = k (applyDeadZone (narrowY ry)).
Proof.
  destruct (filtered_range lx ly rx ry) as (H1 & H2 & H3 & H4).
  unfold scaled. simpl. destruct (isDown st r2); simpl.
  - repeat split; apply quo16_quot; assumption.
  - repeat split.
Qed.

Lemma narrowX_wrap (m : Z) : 32768 < m <= 65535 -> narrowX m = m - 65536.
Proof.
  intros H. unfold narrowX. destruct (Z.eqb_spec m 32768); [lia|].
  apply int16_wrap. lia.
Qed.

Lemma narrowY_wrap (m : Z) : 32768 < m <= 65535 -> narrowY m = 65536 - m.
Proof.
  intros H. unfold narrowY, neg16. destruct (Z.eqb_spec m 32768); [lia|].
  rewrite (int16_wrap m) by lia. rewrite int16_small; lia.
Qed.

Section StickClaims.

Variables (cfg : joystickConfig) (v : Vars) (p : Poll).
Variables (lx ly rx ry : Z) (r2 : N).
Hypothesis HLX : result (rawAxis cfg (readState p) axLeftX) = Some lx.
Hypothesis HLY : result (rawAxis cfg (readState p) axLeftY) = Some ly.
Hypothesis HRX : result (rawAxis cfg (readState p) axRightX) = Some rx.
Hypothesis HRY : result (rawAxis cfg (readState p) axRightY) = Some ry.
Hypothesis HR2 : nth_error (buttons cfg) btnR2 = Some r2.

(** C4.  Each axis on its own: the dead zone acts on the narrowed
    value after the inversion of the Y axes, a value of magnitude
    below 2000 becomes zero, and precision mode divides what the dead
    zone left.  The message is the one sent in operational mode and
    printed (unless all zero) in test mode. *)
Theorem dead_zone_per_axis :
  let k := fun x => if isDown (readState p) r2 then Z.quot x 3 else x in
  exists s,
    sent (trace (cycle cfg false v p)) = [s] /\
    printed (trace (cycle cfg true v p)) = (if allZero s then [] else [s]) /\
    (Rx s = k (applyDeadZone (narrowX lx)) /\
     Ry s = k (applyDeadZone (narrowY ly)) /\
     Lx s = k (applyDeadZone (narrowX rx)) /\
     Ly s = k (applyDeadZone (narrowY ry))) /\
    (forall n, Z.abs n < deadZone -> applyDeadZone n = 0) /\
    (Z.abs (narrowX lx) < deadZone -> Rx s = 0) /\
    (Z.abs (narrowY ly) < deadZone -> Ry s = 0) /\
    (Z.abs (narrowX rx) < deadZone -> Lx s = 0) /\
    (Z.abs (narrowY ry) < deadZone -> Ly s = 0).
Proof.
  intros k. exists (scaled (readState p) r2 (filtered lx ly rx ry)).
  destruct (scaled_fields (readState p) r2 lx ly rx ry) as (E1 & E2 & E3 & E4).
  split; [apply (cycle_sent cfg v p lx ly rx ry r2); assumption|].
  split; [apply (cycle_printed cfg v p lx ly rx ry r2); assumption|].
  split; [now repeat split|].
  split; [exact applyDeadZone_zero|].
  repeat split; intros H;
    [rewrite E1 | rewrite E2 | rewrite E3 | rewrite E4];
    rewrite (applyDeadZone_zero _ H); now destruct (isDown (readState p) r2).
Qed.

(** C5.  While the R2 bit is set in the current mask each of the four
    fields is the quotient by 3, truncated toward zero, of the value
    the dead zone left; while it is clear the fields are those values.
    Neither the previous state nor the previous message enters. *)
Theorem precision_mode_level :
  let f := filtered lx ly rx ry in
  exists s,
    sent (trace (cycle cfg false v p)) = [s] /\
    printed (trace (cycle cfg true v p)) = (if allZero s then [] else [s]) /\
    (isDown (readState p) r2 = true ->
     Rx s = Z.quot (Rx f) 3 /\ Ry s = Z.quot (Ry f) 3 /\
     Lx s = Z.quot (Lx f) 3 /\ Ly s = Z.quot (Ly f) 3) /\
    (isDown (readState p) r2 = false -> s = f) /\
    (forall v', sent (trace (cycle cfg false v' p)) = [s]) /\
    (forall test v' w,
       result (cycle cfg test v' p) = Some w -> sm w = s).
Proof.
  intros f. exists (scaled (readState p) r2 (filtered lx ly rx ry)).
  destruct (scaled_fields (readState p) r2 lx ly rx ry) as (E1 & E2 & E3 & E4).
  split; [apply (cycle_sent cfg v p lx ly rx ry r2); assumption|].
  split; [apply (cycle_printed cfg v p lx ly rx ry r2); assumption|].
  split; [|split; [|split]].
  - intros D. rewrite D in *. now repeat split.
  - intros D. unfold scaled. now rewrite D.
  - intros v'. apply (cycle_sent cfg v' p lx ly rx ry r2); assumption.
  - intros test v' w H.
    rewrite (cycle_run cfg v' p lx ly rx ry r2 HLX HLY HRX HRY HR2 test) in H.
    unfold result in H. cbn [snd] in H.
    destruct (snd (dispatch _ _ _ _ _)); [|discriminate].
    now injection H as <-.
Qed.

(** C10.  A raw value strictly between 32768 and 65536 wraps: what
    reaches the dead zone is [m - 65536] (negative) on an X axis and
    [65536 - m] (positive) on a Y axis.  Only 32768 is replaced. *)
Theorem narrowing_wraps_above_32768 :
  let k := fun x => if isDown (readState p) r2 then Z.quot x 3 else x in
  (forall m, 32768 < m <= 65535 ->
     narrowX m = m - 65536 /\ narrowX m < 0 /\
     narrowY m = 65536 - m /\ 0 < narrowY m) /\
  (narrowX 32768 = 32767 /\ narrowY 32768 = -32767) /\
  (forall m, m <> 32768 -> narrowX m = int16 m /\ narrowY m = neg16 (int16 m)) /\
  exists s,
    sent (trace (cycle cfg false v p)) = [s] /\
    (32768 < lx <= 65535 -> Rx s = k (applyDeadZone (lx - 65536))) /\
    (32768 < ly <= 65535 -> Ry s = k (applyDeadZone (65536 - ly))) /\
    (32768 < rx <= 65535 -> Lx s = k (applyDeadZone (rx - 65536))) /\
    (32768 < ry <= 65535 -> Ly s = k (applyDeadZone (65536 - ry))).
Proof.
  intros k. split; [|split; [|split]].
  - intros m H. rewrite (narrowX_wrap m H), (narrowY_wrap m H). lia.
  - split; reflexivity.
  - intros m H. unfold narrowX, narrowY.
    destruct (Z.eqb_spec m 32768); [contradiction | split; reflexivity].
  - exists (scaled (readState p) r2 (filtered lx ly rx ry)).
    destruct (scaled_fields (readState p) r2 lx ly rx ry) as (E1 & E2 & E3 & E4).
    split; [apply (cycle_sent cfg v p lx ly rx ry r2); assumption|].
    repeat split; intros H.
    + now rewrite E1, (narrowX_wrap lx H).
    + now rewrite E2, (narrowY_wrap ly H).
    + now rewrite E3, (narrowX_wrap rx H).
    + now rewrite E4, (narrowY_wrap ry H).
Qed.

(** C3, as the code has it.  The one raw value the code replaces is
    32768: there an X field is 32767 and a Y field -32767 while R2 is
    up, and 10922 and -10922 while R2 is down. *)
Theorem sentinel_32768_clamped :
  exists s,
    sent (trace (cycle cfg false v p)) = [s] /\
    (lx = 32768 -> Rx s = if isDown (readState p) r2 then 10922 else 32767) /\
    (ly = 32768 -> Ry s = if isDown (readState p) r2 then -10922 else -32767) /\
    (rx = 32768 -> Lx s = if isDown (readState p) r2 then 10922 else 32767) /\
    (ry = 32768 -> Ly s = if isDown (readState p) r2 then -10922 else -32767).
Proof.
  exists (scaled (readState p) r2 (filtered lx ly rx ry)).
  destruct (scaled_fields (readState p) r2 lx ly rx ry) as (E1 & E2 & E3 & E4).
  split; [apply (cycle_sent cfg v p lx ly rx ry r2); assumption|].
  repeat split; intros ->;
    [rewrite E1 | rewrite E2 | rewrite E3 | rewrite E4];
    now destruct (isDown (readState p) r2).
Qed.

End StickClaims.

(** ** The PlayStation profile and the left stick *)

Lemma dualShock4_selected (GOOS : string) (Open : Z -> option Joystick)
    (id : Z) (js : Joystick) (cfg : joystickConfig) :
  String.eqb GOOS "windows" = false ->
  setupJoystick (Some "DualShock4"%string) GOOS Open id = Ready js cfg true ->
  cfg = dualShock4Config.
Proof.
  intros HOS. unfold setupJoystick. simpl.
  destruct (Open id); [|discriminate].
  rewrite HOS. now intros [= _ <-].
Qed.

(** C2, as the code has it.  Under the profile installed for
    "DualShock4" off Windows, a raw left-X reading of 32768 makes the
    field [Rx] 32767 (10922 while R2, bit 7, is down).  The field [Lx]
    is fed by the right stick. *)
Theorem dualShock4_leftX_sentinel_Rx
    (GOOS : string) (Open : Z -> option Joystick) (id : Z) (js : Joystick)
    (cfg : joystickConfig) (v : Vars) (p : Poll) (ly rx ry : Z) :
  String.eqb GOOS "windows" = false ->
  setupJoystick (Some "DualShock4"%string) GOOS Open id = Ready js cfg true ->
  result (rawAxis cfg (readState p) axLeftX) = Some 32768 ->
  result (rawAxis cfg (readState p) axLeftY) = Some ly ->
  result (rawAxis cfg (readState p) axRightX) = Some rx ->
  result (rawAxis cfg (readState p) axRightY) = Some ry ->
  exists s,
    sent (trace (cycle cfg false v p)) = [s] /\
    printed (trace (cycle cfg true v p)) = [s] /\
    Rx s = (if isDown (readState p) 7 then 10922 else 32767) /\
    Lx s = (if isDown (readState p) 7
            then Z.quot (applyDeadZone (narrowX rx)) 3
            else applyDeadZone (narrowX rx)).
Proof.
  intros HOS HS HLX HLY HRX HRY.
  rewrite (dualShock4_selected _ _ _ _ _ HOS HS) in *.
  assert (HR2 : nth_error (buttons dualShock4Config) btnR2 = Some 7%N)
    by reflexivity.
  exists (scaled (readState p) 7 (filtered 32768 ly rx ry)).
  destruct (scaled_fields (readState p) 7 32768 ly rx ry) as (E1 & E2 & E3 & E4).
  assert (ERx : Rx (scaled (readState p) 7 (filtered 32768 ly rx ry)) =
                if isDown (readState p) 7 then 10922 else 32767)
    by (rewrite E1; now destruct (isDown (readState p) 7)).
  split; [apply (cycle_sent _ v p 32768 ly rx ry 7); assumption|].
  split; [|split; [exact ERx | exact E3]].
  rewrite (cycle_printed _ v p 32768 ly rx ry 7) by assumption.
  unfold allZero. rewrite ERx.
  destruct (isDown (readState p) 7); simpl;
    now rewrite andb_false_r.
Qed.

(** ** Profile selection *)

Lemma unrecognized_eqb (t : string) :
  ~ In t jsTypes ->
  String.eqb t "DualShock4" = false /\ String.eqb t "HotasX" = false /\
  String.eqb t "EightBitDoSF30Pro" = false /\
  String.eqb t "SteamController" = false.
Proof.
  intros H. repeat split; apply String.eqb_neq; intros ->; apply H; simpl; tauto.
Qed.

(** C9 as stated fails: the joystick is opened before the type is
    looked at, so with a joystick that does not open an unrecognised
    type ends in the could-not-open message, not in one of the two
    messages about the type, and a recognised type installs no
    profile. *)
Lemma open_failure_precedes_selection :
  ~ (forall t GOOS Open id,
       ~ In t jsTypes ->
       setupJoystick (Some t) GOOS Open id = Exit NoJoystickTypeSupplied \/
       setupJoystick (Some t) GOOS Open id = Exit (UnknownJoystickType t)) /\
  ~ (forall t GOOS Open id,
       In t jsTypes ->
       exists js cfg, setupJoystick (Some t) GOOS Open id = Ready js cfg true) /\
  setupJoystick (Some "Foo"%string) "linux" (fun _ => None) 0 =
    Exit (CouldNotOpen 0) /\
  setupJoystick (Some "HotasX"%string) "linux" (fun _ => None) 0 =
    Exit (CouldNotOpen 0).
Proof.
  split; [|split; [|split; reflexivity]].
  - intros H.
    destruct (H "Foo"%string "linux"%string (fun _ => None) 0) as [E|E].
    + simpl. intros [F|[F|[F|[F|[]]]]]; discriminate.
    + discriminate E.
    + discriminate E.
  - intros H.
    destruct (H "HotasX"%string "linux"%string (fun _ => None) 0) as (js & cfg & E).
    + simpl. tauto.
    + discriminate E.
Qed.

(** C9, as the code has it.  A missing type ([nil] or empty flag) exits
    with the no-type message before the joystick is opened.  With a
    non-empty type the joystick is opened first: if that fails the exit
    is the could-not-open one, whatever the type.  Once it is open, an
    unrecognised type exits with the unknown-type message and a
    recognised type installs the table of that name and returns
    [true]; the operating system is looked at for "DualShock4" only.
    So a missing or unrecognised type never lets [setupJoystick]
    return. *)
Theorem setupJoystick_selection
    (GOOS : string) (Open : Z -> option Joystick) (id : Z) :
  setupJoystick None GOOS Open id = Exit NoJoystickTypeSupplied /\
  setupJoystick (Some ""%string) GOOS Open id = Exit NoJoystickTypeSupplied /\
  (forall t, t <> ""%string -> Open id = None ->
     setupJoystick (Some t) GOOS Open id = Exit (CouldNotOpen id)) /\
  (forall t js, t <> ""%string -> ~ In t jsTypes -> Open id = Some js ->
     setupJoystick (Some t) GOOS Open id = Exit (UnknownJoystickType t)) /\
  (forall t, ~ In t jsTypes ->
     exists f, setupJoystick (Some t) GOOS Open id = Exit f) /\
  (forall js, Open id = Some js ->
     setupJoystick (Some "DualShock4"%string) GOOS Open id =
       Ready js (if String.eqb GOOS "windows"
                 then dualShock4ConfigWin else dualShock4Config) true /\
     setupJoystick (Some "HotasX"%string) GOOS Open id =
       Ready js tflightHotasXConfig true /\
     setupJoystick (Some "EightBitDoSF30Pro"%string) GOOS Open id =
       Ready js eightBitDoSF30Pro true /\
     setupJoystick (Some "SteamController"%string) GOOS Open id =
       Ready js tflightSteamControllerConfig true) /\
  (forall t GOOS', t <> "DualShock4"%string ->
     setupJoystick (Some t) GOOS Open id = setupJoystick (Some t) GOOS' Open id) /\
  dualShock4ConfigWin <> dualShock4Config.
Proof.
  split; [reflexivity|]. split; [reflexivity|].
  split; [|split; [|split; [|split; [|split]]]].
  - intros t Hne HO. unfold setupJoystick.
    apply String.eqb_neq in Hne. now rewrite Hne, HO.
  - intros t js Hne Ht HO. destruct (unrecognized_eqb t Ht) as (E1 & E2 & E3 & E4).
    unfold setupJoystick. rewrite E1, E2, E3, E4, HO.
    apply String.eqb_neq in Hne. now rewrite Hne.
  - intros t Ht. destruct (unrecognized_eqb t Ht) as (E1 & E2 & E3 & E4).
    unfold setupJoystick. rewrite E1, E2, E3, E4.
    destruct (String.eqb t ""); [eexists; reflexivity|].
    destruct (Open id); eexists; reflexivity.
  - intros js HO. unfold setupJoystick. simpl. rewrite HO.
    repeat split. now destruct (String.eqb GOOS "windows").
  - intros t GOOS' Hne. apply String.eqb_neq in Hne.
    unfold setupJoystick. now rewrite Hne.
  - discriminate.
Qed.

Lemma setupJoystick_selection_witness :
  setupJoystick (Some "Foo"%string) "linux" (fun _ => Some 0) 0 =
    Exit (UnknownJoystickType "Foo") /\
  setupJoystick (Some "HotasX"%string) "linux" (fun _ => Some 0) 0 =
    Ready 0 tflightHotasXConfig true /\
  setupJoystick (Some "Foo"%string) "linux" (fun _ => None) 0 =
    Exit (CouldNotOpen 0).
Proof.
  pose proof (setupJoystick_selection "linux" (fun _ => Some 0) 0)
    as (_ & _ & _ & HU & _ & HR & _).
  pose proof (setupJoystick_selection "linux" (fun _ => None) 0)
    as (_ & _ & HC & _).
  split; [|split].
  - apply (HU "Foo"%string 0).
    + discriminate.
    + simpl. intros [H|[H|[H|[H|[]]]]]; discriminate.
    + reflexivity.
  - apply (HR 0 eq_refl).
  - apply (HC "Foo"%string); [discriminate | reflexivity].
Defined.

(** ** The button part *)

Lemma count_onPress (q : Event -> bool) (cfg : joystickConfig)
    (st prev : State) (b : nat) (body : M unit) :
  count q (trace (onPress cfg st prev b body)) =
  if fires cfg st prev b then count q (trace body) else 0%nat.
Proof.
  unfold fires. destruct (nth_error (buttons cfg) b) as [bit|] eqn:E.
  - now rewrite (onPress_run _ _ _ _ _ _ E), count_when.
  - now rewrite (onPress_panic _ _ _ _ _ E).
Qed.

Lemma result_onPress (cfg : joystickConfig) (st prev : State) (b : nat)
    (body : M unit) :
  result body = Some tt ->
  result (onPress cfg st prev b body) =
  if mapped cfg b then Some tt else None.
Proof.
  intros H. unfold mapped.
  destruct (nth_error (buttons cfg) b) as [bit|] eqn:E.
  - rewrite (onPress_run _ _ _ _ _ _ E). unfold when. now destruct pressed.
  - now rewrite (onPress_panic _ _ _ _ _ E).
Qed.

Lemma count_seq {B : Type} (q : Event -> bool) (m : M unit) (k : M B) :
  result m = Some tt ->
  count q (trace (m ;; k)) = (count q (trace m) + count q (trace k))%nat.
Proof. intros H. now rewrite count_bind, H. Qed.

Lemma result_seq {B : Type} (m : M unit) (k : M B) :
  result m = Some tt -> result (m ;; k) = result k.
Proof. intros H. now rewrite result_bind, H. Qed.

Lemma count_index_bind {A B : Type} (q : Event -> bool) (s : list A) (i : nat)
    (a : A) (f : A -> M B) :
  nth_error s i = Some a ->
  count q (trace (x <- index s i ;; f x)) = count q (trace (f a)).
Proof.
  intros H. now rewrite (bind_run _ _ _ _ (index_run _ _ _ H)).
Qed.

Lemma result_index_bind {A B : Type} (s : list A) (i : nat)
    (a : A) (f : A -> M B) :
  nth_error s i = Some a ->
  result (x <- index s i ;; f x) = result (f a).
Proof.
  intros H. now rewrite (bind_run _ _ _ _ (index_run _ _ _ H)).
Qed.

Lemma if_same {A : Type} (c : bool) (x : A) : (if c then x else x) = x.
Proof. now destruct c. Qed.

Lemma polled_mapped (cfg : joystickConfig) (b : nat) :
  buttonsInRange cfg = true -> In b (polled cfg) -> mapped cfg b = true.
Proof.
  unfold buttonsInRange. rewrite forallb_forall. auto.
Qed.

(** The bodies of the edge tests run to their end. *)
Lemma body_result (test : bool) (line : string) (c : DroneCall) :
  result (if test then emit (Println line) else emit (Drone c)) = Some tt.
Proof. now destruct test. Qed.

Lemma square_result (test fl : bool) :
  result (if test then emit (Println "⌑ pressed")
          else emit (Drone GetFlightData) ;;
               if fl then emit (Drone PalmLand) else emit (Drone ThrowTakeOff))
  = Some tt.
Proof. now destruct test, fl. Qed.

Lemma quiet_result (test : bool) (line : string) :
  result (when test (emit (Println line))) = Some tt.
Proof. now destruct test. Qed.

Section Buttons.

Variables (cfg : joystickConfig) (test : bool) (st prev : State) (fl : bool).
Variable enabled : bool.
Hypothesis HB : buttonsInRange cfg = true.
Hypothesis HF : nth_error (features cfg) flipsEnabled = Some enabled.

Lemma mapped_always (b : nat) :
  In b [btnR2; btnL1; btnL2; btnR1; btnL3; btnR3; btnSquare; btnTriangle;
        btnCircle; btnX] ->
  mapped cfg b = true.
Proof.
  intros H. apply polled_mapped; [exact HB|].
  unfold polled. apply in_or_app. now left.
Qed.

Lemma mapped_dpad (b : nat) :
  enabled = true -> In b [btnDL; btnDR; btnDU; btnDD] -> mapped cfg b = true.
Proof.
  intros -> H. apply polled_mapped; [exact HB|].
  unfold polled. rewrite HF. apply in_or_app. now right.
Qed.

Lemma flips_result :
  enabled = true -> result (flips cfg test st prev) = Some tt.
Proof.
  intros HE. unfold flips.
  rewrite !result_seq;
    rewrite ?result_onPress by apply body_result;
    rewrite ?mapped_dpad by (try exact HE; simpl; tauto);
    reflexivity.
Qed.

Lemma dispatch_result : result (dispatch cfg test st prev fl) = Some tt.
Proof.
  unfold dispatch.
  rewrite !result_seq;
    rewrite ?result_onPress
      by first [apply body_result | apply square_result | apply quiet_result];
    rewrite ?mapped_always by (simpl; tauto);
    try reflexivity.
  rewrite (result_index_bind _ _ _ _ HF).
  destruct (bool_dec enabled true) as [E|E].
  - rewrite E at 1. unfold when. now apply flips_result.
  - apply not_true_is_false in E. now rewrite E at 1.
Qed.

(** The events of the flip feature, button by button. *)
Lemma count_flips (q : Event -> bool) :
  enabled = true ->
  count q (trace (flips cfg test st prev)) =
  ((if fires cfg st prev btnDL then
      count q (if test then [Println "D-Pad Left pressed"] else [Drone LeftFlip])
    else 0)
   + ((if fires cfg st prev btnDR then
         count q (if test then [Println "D-Pad Right pressed"] else [Drone RightFlip])
       else 0)
      + ((if fires cfg st prev btnDU then
            count q (if test then [Println "D-Pad Up pressed"] else [Drone ForwardFlip])
          else 0)
         + (if fires cfg st prev btnDD then
              count q (if test then [Println "D-Pad Down pressed"] else [Drone BackFlip])
            else 0))))%nat.
Proof.
  intros HE. unfold flips.
  rewrite !count_seq;
    rewrite ?result_onPress by apply body_result;
    rewrite ?mapped_dpad by (try exact HE; simpl; tauto);
    try reflexivity.
  rewrite !count_onPress. now destruct test.
Qed.

(** The events of the button part, button by button. *)
Lemma count_dispatch (q : Event -> bool) :
  count q (trace (dispatch cfg test st prev fl)) =
  ((if fires cfg st prev btnL1 then
      count q (if test then [Println "L1 pressed"] else [Drone SetSlowMode])
    else 0)
   + ((if fires cfg st prev btnL2 then
         count q (if test then [Println "L2 pressed"] else [Drone Bounce])
       else 0)
   + ((if fires cfg st prev btnR1 then
         count q (if test then [Println "R1 pressed"] else [Drone SetFastMode])
       else 0)
   + ((if fires cfg st prev btnL3 then
         count q (if test then [Println "L3 pressed"] else [])
       else 0)
   + ((if fires cfg st prev btnR3 then
         count q (if test then [Println "R3 pressed"] else [])
       else 0)
   + ((if fires cfg st prev btnSquare then
         count q (if test then [Println "⌑ pressed"]
                  else [Drone GetFlightData;
                        Drone (if fl then PalmLand else ThrowTakeOff)])
       else 0)
   + ((if fires cfg st prev btnTriangle then
         count q (if test then [Println "△ pressed"] else [Drone TakeOff])
       else 0)
   + ((if fires cfg st prev btnCircle then
         count q (if test then [Println "○ pressed"] else [Drone TakePicture])
       else 0)
   + ((if fires cfg st prev btnX then
         count q (if test then [Println "╳ pressed"] else [Drone Land])
       else 0)
   + (if enabled then count q (trace (flips cfg test st prev)) else 0))))))))))%nat.
Proof.
  unfold dispatch.
  rewrite !count_seq;
    rewrite ?result_onPress
      by first [apply body_result | apply square_result | apply quiet_result];
    rewrite ?mapped_always by (simpl; tauto);
    try reflexivity.
  rewrite !count_onPress, (count_index_bind _ _ _ _ _ HF), !count_when.
  destruct test, fl; reflexivity.
Qed.

End Buttons.

(** ** A whole iteration with every lookup in range *)

Lemma hasAxis_reading (cfg : joystickConfig) (st : State) (ax : nat) :
  hasAxis cfg st ax = true -> exists raw, result (rawAxis cfg st ax) = Some raw.
Proof.
  unfold hasAxis. destruct (result (rawAxis cfg st ax)) as [raw|];
    [now exists raw | discriminate].
Qed.

Lemma inRange_elim (cfg : joystickConfig) (st : State) :
  inRange cfg st = true ->
  exists lx ly rx ry r2 enabled,
    result (rawAxis cfg st axLeftX) = Some lx /\
    result (rawAxis cfg st axLeftY) = Some ly /\
    result (rawAxis cfg st axRightX) = Some rx /\
    result (rawAxis cfg st axRightY) = Some ry /\
    nth_error (buttons cfg) btnR2 = Some r2 /\
    buttonsInRange cfg = true /\
    nth_error (features cfg) flipsEnabled = Some enabled.
Proof.
  unfold inRange. intros H.
  apply andb_prop in H as [H HF]. apply andb_prop in H as [HA HB].
  simpl in HA.
  apply andb_prop in HA as [H1 HA]. apply andb_prop in HA as [H2 HA].
  apply andb_prop in HA as [H3 HA]. apply andb_prop in HA as [H4 _].
  destruct (hasAxis_reading _ _ _ H1) as [lx E1].
  destruct (hasAxis_reading _ _ _ H2) as [ly E2].
  destruct (hasAxis_reading _ _ _ H3) as [rx E3].
  destruct (hasAxis_reading _ _ _ H4) as [ry E4].
  assert (HM : mapped cfg btnR2 = true)
    by (apply polled_mapped; [exact HB | unfold polled; simpl; tauto]).
  unfold mapped in HM.
  destruct (nth_error (buttons cfg) btnR2) as [r2|] eqn:ER2; [|discriminate].
  destruct (nth_error (features cfg) flipsEnabled) as [en|] eqn:EF; [|discriminate].
  exists lx, ly, rx, ry, r2, en. repeat split; assumption.
Qed.

(** With every lookup in range the iteration runs to its end and
    remembers the state it read. *)
Lemma cycle_completes (cfg : joystickConfig) (test : bool) (v : Vars) (p : Poll) :
  inRange cfg (readState p) = true ->
  exists w, result (cycle cfg test v p) = Some w /\ prevState w = readState p.
Proof.
  intros H.
  destruct (inRange_elim _ _ H)
    as (lx & ly & rx & ry & r2 & en & E1 & E2 & E3 & E4 & ER2 & HB & HF).
  rewrite (cycle_run cfg v p lx ly rx ry r2 E1 E2 E3 E4 ER2 test).
  unfold result at 1. cbn [snd].
  rewrite (dispatch_result cfg test _ _ _ en HB HF).
  eexists. split; reflexivity.
Qed.

Lemma count_r2Lines (q : Event -> bool) (test : bool) (st prev : State) (r2 : N) :
  count q (r2Lines test st prev r2) =
  ((if test && pressed st prev r2 then count q [Println "R2 pressed"] else 0)
   + (if test && pressed prev st r2 then count q [Println "R2 released"] else 0))%nat.
Proof.
  unfold r2Lines, pressed.
  destruct (isDown st r2), test, (isDown prev r2); cbn [andb negb];
    rewrite ?Nat.add_0_r; reflexivity.
Qed.

Lemma cycle_count (q : Event -> bool) (cfg : joystickConfig) (test : bool)
    (v : Vars) (p : Poll) (r2 : N) (enabled : bool) :
  buttonOnly q ->
  inRange cfg (readState p) = true ->
  nth_error (buttons cfg) btnR2 = Some r2 ->
  nth_error (features cfg) flipsEnabled = Some enabled ->
  count q (trace (cycle cfg test v p)) =
  (count q (r2Lines test (readState p) (prevState v) r2)
   + count q (trace (dispatch cfg test (readState p) (prevState v) (flying p))))%nat.
Proof.
  intros (Q1 & Q2 & Q3 & Q4) H ER2 HF.
  destruct (inRange_elim _ _ H)
    as (lx & ly & rx & ry & r2' & en & E1 & E2 & E3 & E4 & ER2' & HB & HF').
  rewrite (cycle_run cfg v p lx ly rx ry r2 E1 E2 E3 E4 ER2 test).
  unfold trace at 1. cbn [fst].
  rewrite !count_app, deliver_trace.
  assert (count q (logLines p) = 0%nat) as ->.
  { unfold logLines. destruct (readErr p); [|reflexivity].
    unfold count; simpl. now rewrite Q1. }
  assert (count q (if test
                   then if allZero (scaled (readState p) r2 (filtered lx ly rx ry))
                        then []
                        else [PrintfJS (scaled (readState p) r2 (filtered lx ly rx ry))]
                   else [ChanSend (scaled (readState p) r2 (filtered lx ly rx ry))])
          = 0%nat) as ->.
  { destruct test; [destruct (allZero _)|]; unfold count; simpl;
      rewrite ?Q2, ?Q3; reflexivity. }
  assert (count q match result (dispatch cfg test (readState p) (prevState v) (flying p)) with
                  | Some _ => [Sleep (if test then Ms150 else UpdatePeriodMs)]
                  | None => []
                  end = 0%nat) as ->.
  { destruct (result (dispatch _ _ _ _ _)); [|reflexivity].
    unfold count; simpl. now rewrite Q4. }
  lia.
Qed.

(** Closed counts are computed. *)
Ltac eval_counts :=
  cbv beta iota;
  repeat match goal with
    | |- context [count ?q (?e :: ?l)] =>
        let n := eval vm_compute in (count q (e :: l)) in
        change (count q (e :: l)) with n
    | |- context [count ?q []] => change (count q []) with 0%nat
    end.

Lemma pressEvent_buttonOnly (test : bool) (b : nat) : buttonOnly (pressEvent test b).
Proof. repeat split. Qed.

Lemma isCall_buttonOnly (c : DroneCall) : buttonOnly (isCall c).
Proof. repeat split. Qed.

(** Within one iteration the pressed-edge event of a button appears once
    when its edge test holds and not at all otherwise. *)
Lemma press_count_cycle (cfg : joystickConfig) (test : bool) (v : Vars) (p : Poll)
    (enabled : bool) (b : nat) (bit : N) :
  inRange cfg (readState p) = true ->
  nth_error (features cfg) flipsEnabled = Some enabled ->
  In b (dispatched test enabled) ->
  nth_error (buttons cfg) b = Some bit ->
  count (pressEvent test b) (trace (cycle cfg test v p)) =
  if pressed (readState p) (prevState v) bit then 1%nat else 0%nat.
Proof.
  intros H HF Hin Eb.
  destruct (inRange_elim _ _ H)
    as (lx & ly & rx & ry & r2 & en & _ & _ & _ & _ & ER2 & HB & _).
  rewrite (cycle_count _ cfg test v p r2 enabled
             (pressEvent_buttonOnly test b) H ER2 HF).
  rewrite count_r2Lines, (count_dispatch cfg test _ _ _ enabled HB HF).
  destruct test, enabled, (flying p);
    rewrite ?(count_flips cfg _ _ _ true HB HF _ eq_refl);
    simpl in Hin;
    repeat (destruct Hin as [<-|Hin]; [|]); try contradiction;
    eval_counts; rewrite ?if_same; unfold fires; rewrite ?Eb;
    try (assert (bit = r2) by congruence; subst bit);
    cbn [andb]; destruct (pressed _ _ _); reflexivity.
Qed.

(** ** Events an iteration cannot make *)

Lemma sticks_count_0 (q : Event -> bool) (cfg : joystickConfig) (test : bool)
    (s : StickMessage) (st prev : State) :
  (forall line, q (Println line) = false) ->
  count q (trace (sticks cfg test s st prev)) = 0%nat.
Proof.
  intros Q. unfold sticks.
  repeat (apply count_bind_0; [now rewrite rawAxis_trace | intros ?raw]).
  apply count_bind_0; [reflexivity | intros r2].
  destruct (isDown st r2);
    (apply count_bind_0; [|reflexivity]);
    rewrite count_when, count_emit, Q; apply if_same.
Qed.

Lemma deliver_count_0 (q : Event -> bool) (test : bool) (s : StickMessage) :
  buttonOnly q -> count q (trace (deliver test s)) = 0%nat.
Proof.
  intros (_ & Q2 & Q3 & _). rewrite deliver_trace.
  destruct test; [destruct (allZero s)|]; unfold count; simpl;
    rewrite ?Q2, ?Q3; reflexivity.
Qed.

(** An iteration makes the events of [q] only in its button part. *)
Lemma cycle_count_0 (q : Event -> bool) (cfg : joystickConfig) (test : bool)
    (v : Vars) (p : Poll) :
  buttonOnly q ->
  (forall line, q (Println line) = false) ->
  count q (trace (dispatch cfg test (readState p) (prevState v) (flying p))) = 0%nat ->
  count q (trace (cycle cfg test v p)) = 0%nat.
Proof.
  intros HQ QL HD. pose proof HQ as (Q1 & _ & _ & Q4). unfold cycle.
  apply count_bind_0.
  { destruct (readErr p); [|reflexivity]. now rewrite count_emit, Q1. }
  intros _. apply count_bind_0; [now apply sticks_count_0 | intros s].
  apply count_bind_0; [now apply deliver_count_0 | intros _].
  apply count_bind_0; [exact HD | intros _].
  apply count_bind_0; [now rewrite count_emit, Q4 | reflexivity].
Qed.

(** ** No event without an edge, also when a lookup panics *)

Lemma sticks_count (q : Event -> bool) (cfg : joystickConfig) (test : bool)
    (s : StickMessage) (st prev : State) :
  count q (trace (sticks cfg test s st prev)) = 0%nat \/
  exists r2,
    nth_error (buttons cfg) btnR2 = Some r2 /\
    count q (trace (sticks cfg test s st prev)) = count q (r2Lines test st prev r2).
Proof.
  destruct (result (rawAxis cfg st axLeftX)) as [lx|] eqn:E1.
  2:{ left. unfold sticks. now rewrite count_bind, E1, rawAxis_trace. }
  destruct (result (rawAxis cfg st axLeftY)) as [ly|] eqn:E2.
  2:{ left. unfold sticks. rewrite (bind_run _ _ _ _ (rawAxis_run _ _ _ _ E1)).
      cbn [trace fst app]. change (fst ?m) with (trace m).
      now rewrite count_bind, E2, rawAxis_trace. }
  destruct (result (rawAxis cfg st axRightX)) as [rx|] eqn:E3.
  2:{ left. unfold sticks. rewrite (bind_run _ _ _ _ (rawAxis_run _ _ _ _ E1)).
      cbn [trace fst app]. change (fst ?m) with (trace m).
      rewrite (bind_run _ _ _ _ (rawAxis_run _ _ _ _ E2)).
      cbn [trace fst app]. change (fst ?m) with (trace m).
      now rewrite count_bind, E3, rawAxis_trace. }
  destruct (result (rawAxis cfg st axRightY)) as [ry|] eqn:E4.
  2:{ left. unfold sticks. rewrite (bind_run _ _ _ _ (rawAxis_run _ _ _ _ E1)).
      cbn [trace fst app]. change (fst ?m) with (trace m).
      rewrite (bind_run _ _ _ _ (rawAxis_run _ _ _ _ E2)).
      cbn [trace fst app]. change (fst ?m) with (trace m).
      rewrite (bind_run _ _ _ _ (rawAxis_run _ _ _ _ E3)).
      cbn [trace fst app]. change (fst ?m) with (trace m).
      now rewrite count_bind, E4, rawAxis_trace. }
  destruct (nth_error (buttons cfg) btnR2) as [r2|] eqn:ER2.
  - right. exists r2. split; [reflexivity|].
    pose proof (sticks_run cfg {| sm := s; prevState := prev |}
                  {| readState := st; readErr := None; flying := false |}
                  lx ly rx ry r2 E1 E2 E3 E4 ER2 test s) as HS.
    cbn [readState prevState] in HS. now rewrite HS.
  - left. unfold sticks. rewrite (bind_run _ _ _ _ (rawAxis_run _ _ _ _ E1)).
    cbn [trace fst app]. change (fst ?m) with (trace m).
    rewrite (bind_run _ _ _ _ (rawAxis_run _ _ _ _ E2)).
    cbn [trace fst app]. change (fst ?m) with (trace m).
    rewrite (bind_run _ _ _ _ (rawAxis_run _ _ _ _ E3)).
    cbn [trace fst app]. change (fst ?m) with (trace m).
    rewrite (bind_run _ _ _ _ (rawAxis_run _ _ _ _ E4)).
    cbn [trace fst app]. change (fst ?m) with (trace m).
    unfold index. now rewrite ER2.
Qed.

(** The edge test of a button that does not rise lets nothing of that
    button into the trace. *)
Ltac no_edge Eb HN :=
  repeat (apply count_bind_0;
          [ first [ apply count_onPress_0; reflexivity
                  | rewrite count_onPress; unfold fires; rewrite Eb, HN;
                    reflexivity ]
          | intros _ ]).

Lemma dispatch_no_edge (cfg : joystickConfig) (test : bool) (st prev : State)
    (fl : bool) (b : nat) (bit : N) :
  In b tested ->
  nth_error (buttons cfg) b = Some bit ->
  pressed st prev bit = false ->
  count (pressEvent test b) (trace (dispatch cfg test st prev fl)) = 0%nat.
Proof.
  intros Hin Eb HN. unfold tested in Hin. simpl in Hin.
  unfold dispatch, flips.
  repeat (destruct Hin as [<-|Hin]; [|]); try contradiction;
    destruct test, fl;
    do 9 (apply count_bind_0;
          [ first [ apply count_onPress_0; reflexivity
                  | rewrite count_onPress; unfold fires; rewrite Eb, HN;
                    reflexivity ]
          | intros _ ]);
    (apply count_bind_0; [reflexivity | intros [|]; [|reflexivity]]);
    unfold when;
    repeat first
      [ apply count_onPress_0; reflexivity
      | rewrite count_onPress; unfold fires; rewrite Eb, HN; reflexivity
      | apply count_bind_0; [ | intros _ ] ].
Qed.

Lemma cycle_no_edge (cfg : joystickConfig) (test : bool) (v : Vars) (p : Poll)
    (b : nat) (bit : N) :
  In b tested ->
  nth_error (buttons cfg) b = Some bit ->
  pressed (readState p) (prevState v) bit = false ->
  count (pressEvent test b) (trace (cycle cfg test v p)) = 0%nat.
Proof.
  intros Hin Eb HN. unfold cycle.
  apply count_bind_0; [destruct (readErr p); reflexivity | intros _].
  apply count_bind_0.
  { destruct (sticks_count (pressEvent test b) cfg test (sm v) (readState p)
                (prevState v)) as [H|(r2 & ER2 & H)]; [exact H|].
    rewrite H, count_r2Lines.
    unfold tested in Hin. simpl in Hin.
    repeat (destruct Hin as [<-|Hin]; [|]); try contradiction;
      destruct test; cbn [andb]; eval_counts; rewrite ?if_same;
      try reflexivity.
    assert (bit = r2) by congruence. subst bit. now rewrite HN. }
  intros s.
  apply count_bind_0;
    [apply deliver_count_0, pressEvent_buttonOnly | intros _].
  apply count_bind_0; [now apply (dispatch_no_edge _ _ _ _ _ b bit) | intros _].
  apply count_bind_0; reflexivity.
Qed.

(** ** The loop *)

Lemma edges_down (bit : N) (sts : list State) : forall prev,
  isDown prev bit = true ->
  (forall st, In st sts -> isDown st bit = true) ->
  edges bit prev sts = 0%nat.
Proof.
  induction sts as [|st sts IH]; intros prev HP HA; simpl; [reflexivity|].
  unfold pressed. rewrite HP, andb_false_r.
  apply IH; [apply HA; now left | intros s Hs; apply HA; now right].
Qed.

Lemma edges_held (bit : N) (sts : list State) (prev : State) :
  isDown prev bit = false ->
  sts <> [] ->
  (forall st, In st sts -> isDown st bit = true) ->
  edges bit prev sts = 1%nat.
Proof.
  intros HP HN HA. destruct sts as [|st sts]; [contradiction|]. simpl.
  assert (HS : isDown st bit = true) by (apply HA; now left).
  unfold pressed. rewrite HS, HP. simpl.
  rewrite (edges_down bit sts st HS); [reflexivity|].
  intros s Hs. apply HA. now right.
Qed.

Section Loop.

Variables (cfg : joystickConfig) (test enabled : bool) (b : nat) (bit : N).
Hypothesis HF : nth_error (features cfg) flipsEnabled = Some enabled.
Hypothesis HD : In b (dispatched test enabled).
Hypothesis HB : nth_error (buttons cfg) b = Some bit.

(** Along a run with every lookup in range the loop reaches the end
    of the polls, and the pressed-edge events of a button are as many
    as the rising edges of its bit. *)
Lemma press_count_loop (polls : list Poll) : forall v,
  (forall p, In p polls -> inRange cfg (readState p) = true) ->
  (exists w, result (loop cfg test v polls) = Some w) /\
  count (pressEvent test b) (trace (loop cfg test v polls)) =
  edges bit (prevState v) (map readState polls).
Proof.
  induction polls as [|p polls IH]; intros v HR.
  - split; [now exists v | reflexivity].
  - assert (Hp : inRange cfg (readState p) = true) by (apply HR; now left).
    destruct (cycle_completes cfg test v p Hp) as (w & Ew & Eprev).
    destruct (IH w (fun q Hq => HR q (or_intror Hq))) as ((w' & Ew') & IHc).
    cbn [loop map edges]. split.
    + exists w'. now rewrite result_bind, Ew.
    + rewrite count_bind, Ew, IHc, Eprev.
      now rewrite (press_count_cycle cfg test v p enabled b bit Hp HF HD HB).
Qed.

End Loop.

Lemma dispatched_tested (test enabled : bool) (b : nat) :
  In b (dispatched test enabled) -> In b tested.
Proof.
  unfold dispatched, tested. destruct test, enabled; simpl; tauto.
Qed.

(** X18.  For a button the loop dispatches (in test mode every button
    it tests, in operational mode every button with an action; the
    D-pad with the flip feature): in an iteration whose lookups are in
    range the pressed-edge event appears exactly when the bit is set in
    the current mask and clear in the previous one, and the current
    state becomes the previous one.  Hence, along a run whose lookups
    are in range, a button that is up, then held down through all of
    one or more iterations, gives exactly one event; in general the
    events of such a run are as many as the rising edges.  And in any
    iteration, also one that panics, there is no event without a rising
    edge: holding never fires again. *)
Theorem pressed_edge_once (cfg : joystickConfig) (test enabled : bool)
    (b : nat) (bit : N) :
  nth_error (features cfg) flipsEnabled = Some enabled ->
  In b (dispatched test enabled) ->
  nth_error (buttons cfg) b = Some bit ->
  (forall v p,
     inRange cfg (readState p) = true ->
     (exists w, result (cycle cfg test v p) = Some w /\
                prevState w = readState p) /\
     count (pressEvent test b) (trace (cycle cfg test v p)) =
       if isDown (readState p) bit && negb (isDown (prevState v) bit)
       then 1%nat else 0%nat) /\
  (forall v polls,
     (forall p, In p polls -> inRange cfg (readState p) = true) ->
     (exists w, result (loop cfg test v polls) = Some w) /\
     count (pressEvent test b) (trace (loop cfg test v polls)) =
       edges bit (prevState v) (map readState polls)) /\
  (forall v held,
     (1 <= List.length held)%nat ->
     (forall p, In p held -> inRange cfg (readState p) = true) ->
     isDown (prevState v) bit = false ->
     (forall p, In p held -> isDown (readState p) bit = true) ->
     (exists w, result (loop cfg test v held) = Some w) /\
     count (pressEvent test b) (trace (loop cfg test v held)) = 1%nat) /\
  (forall v p,
     isDown (readState p) bit && negb (isDown (prevState v) bit) = false ->
     count (pressEvent test b) (trace (cycle cfg test v p)) = 0%nat).
Proof.
  intros HF HD HB. split; [|split; [|split]].
  - intros v p H. split; [now apply cycle_completes|].
    now apply (press_count_cycle cfg test v p enabled b bit).
  - intros v polls H.
    now apply (press_count_loop cfg test enabled b bit HF HD HB).
  - intros v held HL HR HU HA.
    destruct (press_count_loop cfg test enabled b bit HF HD HB held v HR)
      as (HW & HC).
    split; [exact HW|]. rewrite HC. apply edges_held.
    + exact HU.
    + destruct held; [simpl in HL; lia | discriminate].
    + intros st Hst. apply in_map_iff in Hst as (p & <- & Hp). now apply HA.
  - intros v p HN.
    apply (cycle_no_edge cfg test v p b bit);
      [exact (dispatched_tested test enabled b HD) | exact HB | exact HN].
Qed.

(** ** The flip feature *)


(** Test mode prints and never calls the drone. *)
Lemma dispatch_test_no_call (cfg : joystickConfig) (st prev : State) (fl : bool) :
  count isDrone (trace (dispatch cfg true st prev fl)) = 0%nat.
Proof. unfold dispatch. silent. Qed.



Lemma loop_count_0 (q : Event -> bool) (cfg : joystickConfig) (test : bool)
    (polls : list Poll) :
  (forall v p, count q (trace (cycle cfg test v p)) = 0%nat) ->
  forall v, count q (trace (loop cfg test v polls)) = 0%nat.
Proof.
  intros H. induction polls as [|p polls IH]; intros v; [reflexivity|].
  simpl. apply count_bind_0; [apply H | exact IH].
Qed.




(** ** The Square button *)

Lemma isCall_no_line (c : DroneCall) (line : string) : isCall c (Println line) = false.
Proof. reflexivity. Qed.

(** Whatever the profile and the inputs, also when a lookup panics, an
    iteration never makes the call of the other branch. *)
Lemma square_never_other (cfg : joystickConfig) (test : bool) (v : Vars) (p : Poll) :
  (flying p = true ->
   count (isCall ThrowTakeOff) (trace (cycle cfg test v p)) = 0%nat) /\
  (flying p = false ->
   count (isCall PalmLand) (trace (cycle cfg test v p)) = 0%nat).
Proof.
  split; intros HFl;
    (apply cycle_count_0;
     [apply isCall_buttonOnly | apply isCall_no_line |]);
    rewrite HFl; unfold dispatch; silent.
Qed.

(** X19.  In operational mode an iteration never calls [ThrowTakeOff]
    while the drone reports flying, nor [PalmLand] while it does not.
    In an iteration whose lookups are in range and in which the Square
    bit rises, the drone is asked once for its flight data; if it is
    flying, [PalmLand] is called once, and otherwise [ThrowTakeOff] is
    called once. *)
Theorem square_palm_land_or_throw (cfg : joystickConfig) (v : Vars) (p : Poll) :
  let t := trace (cycle cfg false v p) in
  (flying p = true -> count (isCall ThrowTakeOff) t = 0%nat) /\
  (flying p = false -> count (isCall PalmLand) t = 0%nat) /\
  (forall bit,
     inRange cfg (readState p) = true ->
     nth_error (buttons cfg) btnSquare = Some bit ->
     isDown (readState p) bit = true ->
     isDown (prevState v) bit = false ->
     count (isCall GetFlightData) t = 1%nat /\
     (flying p = true -> count (isCall PalmLand) t = 1%nat) /\
     (flying p = false -> count (isCall ThrowTakeOff) t = 1%nat)).
Proof.
  intros t. subst t.
  destruct (square_never_other cfg false v p) as (N1 & N2).
  split; [exact N1|]. split; [exact N2|].
  intros bit H Eb HD HU.
  destruct (inRange_elim _ _ H)
    as (lx & ly & rx & ry & r2 & en & _ & _ & _ & _ & ER2 & HB & HF).
  assert (HP : pressed (readState p) (prevState v) bit = true)
    by (unfold pressed; now rewrite HD, HU).
  rewrite !(fun c => cycle_count _ cfg false v p r2 en (isCall_buttonOnly c) H ER2 HF).
  rewrite !count_r2Lines, !(count_dispatch cfg false _ _ _ en HB HF).
  destruct en, (flying p);
    rewrite ?(count_flips cfg _ _ _ true HB HF _ eq_refl);
    eval_counts; rewrite ?if_same; unfold fires; rewrite Eb, HP;
    repeat split; intros; try discriminate; reflexivity.
Qed.

(** ** The button table of the PlayStation profiles *)

Lemma cycle_panics (cfg : joystickConfig) (test : bool) (v : Vars) (p : Poll) :
  result (dispatch cfg test (readState p) (prevState v) (flying p)) = None ->
  result (cycle cfg test v p) = None.
Proof.
  intros H. unfold cycle. rewrite result_bind.
  destruct (result match readErr p with
                   | Some e => emit (LogPrintf e)
                   | None => ret tt
                   end); [|reflexivity].
  rewrite result_bind. destruct (result (sticks _ _ _ _ _)); [|reflexivity].
  rewrite result_bind. destruct (result (deliver _ _)); [|reflexivity].
  now rewrite result_bind, H.
Qed.

(** An iteration stops at the R3 test when the table has no entry for
    R3: the tests after it (Square, Triangle, Circle, X, the D-pad) are
    not reached. *)
Lemma dispatch_stops_at_R3 (cfg : joystickConfig) (test : bool) (st prev : State)
    (fl : bool) :
  nth_error (buttons cfg) btnR3 = None ->
  dispatch cfg test st prev fl =
  (onPress cfg st prev btnL1
     (if test then emit (Println "L1 pressed") else emit (Drone SetSlowMode)) ;;
   onPress cfg st prev btnL2
     (if test then emit (Println "L2 pressed") else emit (Drone Bounce)) ;;
   onPress cfg st prev btnR1
     (if test then emit (Println "R1 pressed") else emit (Drone SetFastMode)) ;;
   onPress cfg st prev btnL3
     (when test (emit (Println "L3 pressed"))) ;;
   ([], None)).
Proof.
  intros H. unfold dispatch. now rewrite (onPress_panic _ _ _ _ _ H).
Qed.

Lemma R3_unmapped_panics (cfg : joystickConfig) (test : bool) (v : Vars) (p : Poll) :
  nth_error (buttons cfg) btnR3 = None ->
  result (cycle cfg test v p) = None.
Proof.
  intros H. apply cycle_panics. rewrite (dispatch_stops_at_R3 _ _ _ _ _ H).
  do 4 (rewrite result_bind; destruct (result (onPress _ _ _ _ _)); [|reflexivity]).
  reflexivity.
Qed.

(** Without an entry for R3 no iteration gets to the Square button, in
    either mode. *)
Lemma R3_unmapped_no_square (cfg : joystickConfig) (test : bool) (v : Vars)
    (p : Poll) :
  nth_error (buttons cfg) btnR3 = None ->
  count (pressEvent test btnSquare) (trace (cycle cfg test v p)) = 0%nat /\
  count (isCall GetFlightData) (trace (cycle cfg test v p)) = 0%nat /\
  count (isCall PalmLand) (trace (cycle cfg test v p)) = 0%nat /\
  count (isCall ThrowTakeOff) (trace (cycle cfg test v p)) = 0%nat.
Proof.
  intros H.
  assert (HD : forall q,
             q (Println "L1 pressed") = false -> q (Println "L2 pressed") = false ->
             q (Println "R1 pressed") = false -> q (Println "L3 pressed") = false ->
             q (Drone SetSlowMode) = false -> q (Drone Bounce) = false ->
             q (Drone SetFastMode) = false ->
             count q (trace (dispatch cfg test (readState p) (prevState v) (flying p)))
             = 0%nat).
  { intros q Q1 Q2 Q3 Q4 Q5 Q6 Q7. rewrite (dispatch_stops_at_R3 _ _ _ _ _ H).
    repeat (apply count_bind_0; [apply count_onPress_0 | intros _]);
      try reflexivity;
      destruct test; unfold when; cbv iota; try reflexivity;
      rewrite count_emit;
      rewrite ?Q1, ?Q2, ?Q3, ?Q4, ?Q5, ?Q6, ?Q7; reflexivity. }
  assert (HS : count (pressEvent test btnSquare) (trace (cycle cfg test v p)) = 0%nat).
  { unfold cycle. apply count_bind_0.
    { destruct (readErr p); reflexivity. }
    intros _. apply count_bind_0.
    { unfold sticks.
      repeat (apply count_bind_0; [now rewrite rawAxis_trace | intros ?raw]).
      apply count_bind_0; [reflexivity | intros r2].
      destruct (isDown (readState p) r2);
        (apply count_bind_0; [|reflexivity]);
        rewrite count_when, count_emit; destruct test; simpl;
        rewrite ?if_same; reflexivity. }
    intros s. apply count_bind_0;
      [apply deliver_count_0, pressEvent_buttonOnly | intros _].
    apply count_bind_0; [|intros _; apply count_bind_0; [|intros _]; reflexivity].
    apply HD; destruct test; reflexivity. }
  split; [exact HS|].
  repeat split;
    (apply cycle_count_0;
     [apply isCall_buttonOnly | reflexivity | apply HD; reflexivity]).
Qed.

(** Without an entry for R3 an iteration makes only the events of the
    stick part and of the tests before R3. *)
Lemma R3_unmapped_count_0 (q : Event -> bool) (cfg : joystickConfig) (test : bool)
    (v : Vars) (p : Poll) :
  nth_error (buttons cfg) btnR3 = None ->
  buttonOnly q ->
  q (Println "R2 pressed") = false -> q (Println "R2 released") = false ->
  q (Println "L1 pressed") = false -> q (Println "L2 pressed") = false ->
  q (Println "R1 pressed") = false -> q (Println "L3 pressed") = false ->
  q (Drone SetSlowMode) = false -> q (Drone Bounce) = false ->
  q (Drone SetFastMode) = false ->
  count q (trace (cycle cfg test v p)) = 0%nat.
Proof.
  intros H HQ P1 P2 Q1 Q2 Q3 Q4 Q5 Q6 Q7.
  pose proof HQ as (B1 & _ & _ & B4). unfold cycle.
  apply count_bind_0.
  { destruct (readErr p); [|reflexivity]. now rewrite count_emit, B1. }
  intros _. apply count_bind_0.
  { destruct (sticks_count q cfg test (sm v) (readState p) (prevState v))
      as [E|(r2 & _ & E)]; [exact E|].
    rewrite E, count_r2Lines. unfold count. cbn [filter].
    rewrite P1, P2. cbn [List.length]. now rewrite !if_same. }
  intros s. apply count_bind_0; [now apply deliver_count_0 | intros _].
  apply count_bind_0.
  { rewrite (dispatch_stops_at_R3 _ _ _ _ _ H).
    repeat (apply count_bind_0; [apply count_onPress_0 | intros _]);
      try reflexivity;
      destruct test; unfold when; cbv iota; try reflexivity;
      rewrite count_emit;
      rewrite ?Q1, ?Q2, ?Q3, ?Q4, ?Q5, ?Q6, ?Q7; reflexivity. }
  intros _. apply count_bind_0; [now rewrite count_emit, B4 | reflexivity].
Qed.

Lemma lateEvent_buttonOnly (test : bool) : buttonOnly (lateEvent test).
Proof. repeat split. Qed.

Lemma R3_unmapped_no_late_event (cfg : joystickConfig) (test : bool) (v : Vars)
    (p : Poll) :
  nth_error (buttons cfg) btnR3 = None ->
  count (lateEvent test) (trace (cycle cfg test v p)) = 0%nat.
Proof.
  intros H.
  apply R3_unmapped_count_0;
    [exact H | apply lateEvent_buttonOnly | ..]; now destruct test.
Qed.

Lemma R3_unmapped_not_inRange (cfg : joystickConfig) (st : State) :
  nth_error (buttons cfg) btnR3 = None -> inRange cfg st = false.
Proof.
  intros H. unfold inRange.
  assert (HB : buttonsInRange cfg = false).
  { unfold buttonsInRange, polled. rewrite forallb_app. cbn [forallb].
    unfold mapped at 6. rewrite H. cbn [andb]. now rewrite !andb_false_r. }
  rewrite HB. now rewrite andb_false_r.
Qed.

(** C6.  Under the two PlayStation profiles the edge tests of Square,
    Triangle, Circle and X are never reached: every iteration panics at
    the lookup of [btnR3] before them, so no iteration has its lookups
    in range and none makes a pressed-edge event of these buttons, in
    either mode, also when the bit is set in the current mask and clear
    in the previous one.  With the Triangle bit (2) rising, and then
    held, the operational loop sends one stick message and stops; no
    [TakeOff] is called. *)
Theorem dualShock4_edges_never_dispatched :
  (forall st, inRange dualShock4Config st = false /\
              inRange dualShock4ConfigWin st = false) /\
  (forall test v p,
     count (lateEvent test) (trace (cycle dualShock4Config test v p)) = 0%nat /\
     count (lateEvent test) (trace (cycle dualShock4ConfigWin test v p)) = 0%nat) /\
  nth_error (buttons dualShock4Config) btnTriangle = Some 2%N /\
  (let p := poll [0; 0; 0; 0; 0] 4 false in
   isDown (readState p) 2 && negb (isDown (prevState initVars) 2) = true /\
   readJoystick dualShock4Config false [p] = ([ChanSend zeroSticks], None) /\
   readJoystick dualShock4Config false [p; p; p] = ([ChanSend zeroSticks], None) /\
   readJoystick dualShock4Config true [p] = ([], None)).
Proof.
  split; [|split; [|split]].
  - intros st. split; now apply R3_unmapped_not_inRange.
  - intros test v p. split; now apply R3_unmapped_no_late_event.
  - reflexivity.
  - cbv zeta. repeat split.
Qed.

(** C8.  Under the two PlayStation profiles the Square test is never
    reached: every iteration panics at the lookup of [btnR3] before it,
    so in operational mode the flight data is never asked for and
    neither [PalmLand] nor [ThrowTakeOff] is ever called.  With the
    Square bit rising (bit 3, or bit 0 on Windows) the loop sends one
    stick message and stops, whether the drone is flying or not. *)
Theorem dualShock4_square_never_dispatched :
  (forall v p,
     count (isCall GetFlightData) (trace (cycle dualShock4Config false v p)) = 0%nat /\
     count (isCall PalmLand) (trace (cycle dualShock4Config false v p)) = 0%nat /\
     count (isCall ThrowTakeOff) (trace (cycle dualShock4Config false v p)) = 0%nat) /\
  (forall v p,
     count (isCall GetFlightData) (trace (cycle dualShock4ConfigWin false v p)) = 0%nat /\
     count (isCall PalmLand) (trace (cycle dualShock4ConfigWin false v p)) = 0%nat /\
     count (isCall ThrowTakeOff) (trace (cycle dualShock4ConfigWin false v p)) = 0%nat) /\
  nth_error (buttons dualShock4Config) btnSquare = Some 3%N /\
  nth_error (buttons dualShock4ConfigWin) btnSquare = Some 0%N /\
  (forall fl,
     let p := poll [0; 0; 0; 0; 0] 8 fl in
     isDown (readState p) 3 && negb (isDown (prevState initVars) 3) = true /\
     readJoystick dualShock4Config false [p] = ([ChanSend zeroSticks], None)) /\
  (forall fl,
     let p := poll [0; 0; 0; 0; 0] 1 fl in
     isDown (readState p) 0 && negb (isDown (prevState initVars) 0) = true /\
     readJoystick dualShock4ConfigWin false [p] = ([ChanSend zeroSticks], None)).
Proof.
  split; [|split; [|split; [|split; [|split]]]].
  - intros v p.
    destruct (R3_unmapped_no_square dualShock4Config false v p eq_refl)
      as (_ & H1 & H2 & H3).
    now repeat split.
  - intros v p.
    destruct (R3_unmapped_no_square dualShock4ConfigWin false v p eq_refl)
      as (_ & H1 & H2 & H3).
    now repeat split.
  - reflexivity.
  - reflexivity.
  - intros fl. cbv zeta. split; [reflexivity | now destruct fl].
  - intros fl. cbv zeta. split; [reflexivity | now destruct fl].
Qed.

(** C1.  The button tables of the two PlayStation profiles have nine
    entries, so the lookup of [btnR3] (index 9) is out of range: every
    iteration under these profiles panics, whatever the inputs.  The
    three other profiles have an entry for every button an iteration
    looks up. *)
Theorem dualShock4_R3_out_of_range :
  (List.length (buttons dualShock4Config) = 9%nat /\
   nth_error (buttons dualShock4Config) btnR3 = None /\
   buttonsInRange dualShock4Config = false) /\
  (List.length (buttons dualShock4ConfigWin) = 9%nat /\
   nth_error (buttons dualShock4ConfigWin) btnR3 = None /\
   buttonsInRange dualShock4ConfigWin = false) /\
  (forall test v p, result (cycle dualShock4Config test v p) = None) /\
  (forall test v p, result (cycle dualShock4ConfigWin test v p) = None) /\
  readJoystick dualShock4Config false [poll [0; 0; 0; 0; 0] 0 false] =
    ([ChanSend zeroSticks], None) /\
  (buttonsInRange tflightHotasXConfig = true /\
   buttonsInRange eightBitDoSF30Pro = true /\
   buttonsInRange tflightSteamControllerConfig = true).
Proof.
  split; [now repeat split|]. split; [now repeat split|].
  split; [intros; now apply R3_unmapped_panics|].
  split; [intros; now apply R3_unmapped_panics|].
  split; [reflexivity | now repeat split].
Qed.

(** ** [inRange] is exactly the absence of a panic *)

Lemma sticks_result_inv (cfg : joystickConfig) (test : bool) (s s' : StickMessage)
    (st prev : State) :
  result (sticks cfg test s st prev) = Some s' ->
  forallb (hasAxis cfg st) [axLeftX; axLeftY; axRightX; axRightY] = true /\
  mapped cfg btnR2 = true.
Proof.
  unfold sticks, hasAxis, mapped. intros H.
  rewrite result_bind in H.
  destruct (result (rawAxis cfg st axLeftX)) as [lx|] eqn:E1; [|discriminate].
  rewrite result_bind in H.
  destruct (result (rawAxis cfg st axLeftY)) as [ly|] eqn:E2; [|discriminate].
  rewrite result_bind in H.
  destruct (result (rawAxis cfg st axRightX)) as [rx|] eqn:E3; [|discriminate].
  rewrite result_bind in H.
  destruct (result (rawAxis cfg st axRightY)) as [ry|] eqn:E4; [|discriminate].
  rewrite result_bind in H. unfold index, result at 1 in H. cbn [snd] in H.
  destruct (nth_error (buttons cfg) btnR2); [|discriminate].
  simpl. now rewrite E1, E2, E3, E4.
Qed.

Ltac step_onPress H :=
  rewrite result_bind, result_onPress in H
    by first [apply body_result | apply square_result | apply quiet_result];
  match type of H with
  | context [mapped ?c ?b] =>
      let E := fresh "E" in
      destruct (mapped c b) eqn:E; [|discriminate H]
  end.

Lemma flips_result_inv (cfg : joystickConfig) (test : bool) (st prev : State) (u : unit) :
  result (flips cfg test st prev) = Some u ->
  forallb (mapped cfg) [btnDL; btnDR; btnDU; btnDD] = true.
Proof.
  unfold flips. intros H. do 3 step_onPress H.
  rewrite result_onPress in H by apply body_result.
  destruct (mapped cfg btnDD) eqn:E2; [|discriminate].
  simpl. now rewrite E, E0, E1, E2.
Qed.

Lemma dispatch_result_inv (cfg : joystickConfig) (test : bool) (st prev : State)
    (fl : bool) (u : unit) :
  result (dispatch cfg test st prev fl) = Some u ->
  forallb (mapped cfg)
    [btnL1; btnL2; btnR1; btnL3; btnR3; btnSquare; btnTriangle; btnCircle; btnX]
    = true /\
  exists enabled,
    nth_error (features cfg) flipsEnabled = Some enabled /\
    (enabled = true -> forallb (mapped cfg) [btnDL; btnDR; btnDU; btnDD] = true).
Proof.
  unfold dispatch. intros H. do 9 step_onPress H.
  split; [simpl; now rewrite E, E0, E1, E2, E3, E4, E5, E6, E7|].
  rewrite result_bind in H. unfold index, result at 1 in H. cbn [snd] in H.
  destruct (nth_error (features cfg) flipsEnabled) as [en|]; [|discriminate].
  exists en. split; [reflexivity|]. intros ->.
  destruct u. now apply (flips_result_inv cfg test st prev tt).
Qed.

Lemma cycle_result_inv (cfg : joystickConfig) (test : bool) (v : Vars) (p : Poll)
    (w : Vars) :
  result (cycle cfg test v p) = Some w -> inRange cfg (readState p) = true.
Proof.
  unfold cycle. intros H. rewrite result_bind in H.
  destruct (result match readErr p with
                   | Some e => emit (LogPrintf e)
                   | None => ret tt
                   end); [|discriminate].
  rewrite result_bind in H.
  destruct (result (sticks _ _ _ _ _)) as [s|] eqn:ES; [|discriminate].
  rewrite result_bind, deliver_result, result_bind in H.
  destruct (result (dispatch _ _ _ _ _)) as [d|] eqn:ED; [|discriminate].
  destruct (sticks_result_inv _ _ _ _ _ _ ES) as (HA & HR2).
  destruct (dispatch_result_inv _ _ _ _ _ _ ED) as (HB & en & HF & HP).
  unfold inRange, buttonsInRange, polled. rewrite HA, HF.
  rewrite forallb_app. cbn [forallb]. rewrite HR2. cbn [andb].
  cbn [forallb] in HB. rewrite HB. cbn [andb].
  destruct en; [now rewrite HP | reflexivity].
Qed.

(** An iteration runs to its end exactly when its lookups are in
    range. *)
Lemma cycle_completes_iff (cfg : joystickConfig) (test : bool) (v : Vars) (p : Poll) :
  inRange cfg (readState p) = true <->
  exists w, result (cycle cfg test v p) = Some w.
Proof.
  split.
  - intros H. destruct (cycle_completes cfg test v p H) as (w & Hw & _).
    now exists w.
  - intros (w & Hw). now apply (cycle_result_inv cfg test v p w).
Qed.

(** ** Concrete runs *)

(** C2 as stated fails: under the PlayStation profile off Windows, with
    the left-X axis (physical axis 0) at 32768 and the right stick at
    rest, the field [Lx] of the message sent is 0; it is [Rx] that is
    32767. *)
Lemma leftX_sentinel_not_Lx :
  ~ (forall GOOS Open id js cfg v p s,
       String.eqb GOOS "windows" = false ->
       setupJoystick (Some "DualShock4"%string) GOOS Open id = Ready js cfg true ->
       result (rawAxis cfg (readState p) axLeftX) = Some 32768 ->
       sent (trace (cycle cfg false v p)) = [s] ->
       Lx s = 32767).
Proof.
  intros H.
  specialize (H "linux"%string (fun _ => Some 0) 0 0 dualShock4Config initVars
                (poll [32768; 0; 0; 0; 0] 0 false)
                {| Rx := 32767; Ry := 0; Lx := 0; Ly := 0 |}
                eq_refl eq_refl eq_refl eq_refl).
  discriminate H.
Qed.

Lemma dualShock4_leftX_sentinel_Rx_witness :
  exists s,
    sent (trace (cycle dualShock4Config false initVars
                   (poll [32768; 0; 0; 0; 0] 0 false))) = [s] /\
    Rx s = 32767.
Proof.
  destruct (dualShock4_leftX_sentinel_Rx "linux" (fun _ => Some 0) 0 0
              dualShock4Config initVars (poll [32768; 0; 0; 0; 0] 0 false) 0 0 0
              eq_refl eq_refl eq_refl eq_refl eq_refl eq_refl)
    as (s & Hs & _ & HRx & _).
  exists s. split; [exact Hs | exact HRx].
Defined.

(** C3 as stated fails: the largest unsigned 16-bit value, 65535, is
    not replaced; it narrows to -1 and the dead zone makes it 0.  And
    at 32768 with R2 down the fields are 10922 and -10922. *)
Lemma max_unsigned_not_clamped :
  ~ (forall cfg v p s,
       In cfg selectable ->
       result (rawAxis cfg (readState p) axLeftX) = Some 65535 ->
       sent (trace (cycle cfg false v p)) = [s] ->
       Rx s = 32767) /\
  sent (trace (cycle eightBitDoSF30Pro false initVars
                 (poll [65535; 65535; 65535; 65535] 0 false))) = [zeroSticks] /\
  sent (trace (cycle eightBitDoSF30Pro false initVars
                 (poll [32768; 32768; 32768; 32768] 128 false))) =
    [{| Rx := 10922; Ry := -10922; Lx := 10922; Ly := -10922 |}].
Proof.
  split; [|split; reflexivity].
  intros H.
  specialize (H eightBitDoSF30Pro initVars
                (poll [65535; 65535; 65535; 65535] 0 false) zeroSticks).
  assert (HIn : In eightBitDoSF30Pro selectable) by (simpl; tauto).
  specialize (H HIn eq_refl eq_refl). discriminate H.
Qed.

Lemma sentinel_32768_clamped_witness :
  exists s,
    sent (trace (cycle eightBitDoSF30Pro false initVars
                   (poll [32768; 32768; 0; 32768] 0 false))) = [s] /\
    Rx s = 32767 /\ Ry s = -32767 /\ Ly s = -32767.
Proof.
  destruct (sentinel_32768_clamped eightBitDoSF30Pro initVars
              (poll [32768; 32768; 0; 32768] 0 false) 32768 32768 0 32768 7
              eq_refl eq_refl eq_refl eq_refl eq_refl)
    as (s & Hs & HRx & HRy & _ & HLy).
  exists s. repeat split;
    [exact Hs | exact (HRx eq_refl) | exact (HRy eq_refl) | exact (HLy eq_refl)].
Defined.

Lemma dead_zone_per_axis_witness :
  exists s,
    sent (trace (cycle tflightHotasXConfig false initVars
                   (poll [1000; 40000; -1999; 0; 32768] 256 false))) = [s] /\
    Lx s = 0 /\ Ry s = 0.
Proof.
  destruct (dead_zone_per_axis tflightHotasXConfig initVars
              (poll [1000; 40000; -1999; 0; 32768] 256 false)
              32768 (-1999) 1000 40000 8
              eq_refl eq_refl eq_refl eq_refl eq_refl)
    as (s & Hs & _ & _ & _ & _ & HRy & HLx & _).
  exists s. repeat split; [exact Hs | apply HLx | apply HRy]; reflexivity.
Defined.

Lemma precision_mode_level_witness :
  exists s,
    sent (trace (cycle tflightHotasXConfig false initVars
                   (poll [2001; 40000; -1999; 0; 32768] 256 false))) = [s] /\
    Lx s = 667 /\ Rx s = 10922.
Proof.
  destruct (precision_mode_level tflightHotasXConfig initVars
              (poll [2001; 40000; -1999; 0; 32768] 256 false)
              32768 (-1999) 2001 40000 8
              eq_refl eq_refl eq_refl eq_refl eq_refl)
    as (s & Hs & _ & HD & _).
  destruct (HD eq_refl) as (HRx & _ & HLx & _).
  exists s. repeat split; [exact Hs | exact HLx | exact HRx].
Defined.

Lemma narrowing_wraps_above_32768_witness :
  exists s,
    sent (trace (cycle tflightHotasXConfig false initVars
                   (poll [40000; 40000; 0; 0; 65535] 0 false))) = [s] /\
    Lx s = -25536 /\ Ly s = 25536 /\ Rx s = 0.
Proof.
  destruct (narrowing_wraps_above_32768 tflightHotasXConfig initVars
              (poll [40000; 40000; 0; 0; 65535] 0 false)
              65535 0 40000 40000 8
              eq_refl eq_refl eq_refl eq_refl eq_refl)
    as (_ & _ & _ & s & Hs & HRx & _ & HLx & HLy).
  exists s. repeat split;
    [exact Hs | apply HLx | apply HLy | apply HRx]; lia.
Defined.

Lemma pressed_edge_once_witness :
  count (pressEvent false btnL1)
    (trace (loop tflightHotasXConfig false initVars
              [poll [0; 0; 0; 0; 0] 2 false; poll [0; 0; 0; 0; 0] 2 false;
               poll [0; 0; 0; 0; 0] 2 false])) = 1%nat.
Proof.
  destruct (pressed_edge_once tflightHotasXConfig false false btnL1 1
              eq_refl (or_introl eq_refl) eq_refl) as (_ & _ & H & _).
  apply H.
  - simpl. lia.
  - intros p [<-|[<-|[<-|[]]]]; reflexivity.
  - reflexivity.
  - intros p [<-|[<-|[<-|[]]]]; reflexivity.
Defined.

Lemma square_palm_land_or_throw_witness :
  count (isCall PalmLand)
    (trace (cycle tflightHotasXConfig false initVars
              (poll [0; 0; 0; 0; 0] 16 true))) = 1%nat /\
  count (isCall ThrowTakeOff)
    (trace (cycle tflightHotasXConfig false initVars
              (poll [0; 0; 0; 0; 0] 16 true))) = 0%nat.
Proof.
  destruct (square_palm_land_or_throw tflightHotasXConfig initVars
              (poll [0; 0; 0; 0; 0] 16 true)) as (HN & _ & H).
  destruct (H 4%N eq_refl eq_refl eq_refl eq_refl) as (_ & HP & _).
  split; [exact (HP eq_refl) | exact (HN eq_refl)].
Defined.


(** * Further properties of the code *)

(** ** [intAbs] and the dead zone on all of [int16] *)

(** X1.  [intAbs] is the absolute value on -32767..32767; at the
    smallest [int16], -32768, the negation wraps and [intAbs] returns
    -32768 itself, a negative number.  The result is always an
    [int16]. *)
Theorem intAbs_on_int16 :
  (forall x, -32767 <= x <= 32767 -> intAbs x = Z.abs x) /\
  intAbs (-32768) = -32768 /\
  (forall x, -32768 <= x <= 32767 -> -32768 <= intAbs x <= 32767).
Proof.
  split; [|split].
  - intros x H. unfold intAbs, neg16. destruct (Z.ltb_spec x 0).
    + rewrite int16_small; lia.
    + lia.
  - reflexivity.
  - intros x H. unfold intAbs, neg16. destruct (Z.ltb_spec x 0).
    + apply int16_range.
    + lia.
Qed.

Lemma intAbs_on_int16_witness : intAbs (-1500) = 1500.
Proof.
  destruct intAbs_on_int16 as (H & _). apply (H (-1500)). lia.
Defined.

Lemma applyDeadZone_min : applyDeadZone (-32768) = 0.
Proof. reflexivity. Qed.

(** X2.  On an [int16] the dead zone returns 0 exactly for the values of
    magnitude below 2000 and for -32768 (whose [intAbs] is negative);
    every other value is returned unchanged. *)
Theorem applyDeadZone_on_int16 (v : Z) :
  -32768 <= v <= 32767 ->
  applyDeadZone v = if (Z.abs v <? 2000) || (v =? -32768) then 0 else v.
Proof.
  intros H. destruct (Z.eqb_spec v (-32768)) as [->|Hne].
  - reflexivity.
  - rewrite orb_false_r. destruct (Z.ltb_spec (Z.abs v) 2000).
    + now apply applyDeadZone_zero.
    + apply applyDeadZone_keep. lia.
Qed.

Lemma applyDeadZone_on_int16_witness :
  applyDeadZone (-32768) = 0 /\ applyDeadZone (-2000) = -2000 /\
  applyDeadZone 1999 = 0.
Proof.
  split; [|split].
  - apply (applyDeadZone_on_int16 (-32768)). lia.
  - apply (applyDeadZone_on_int16 (-2000)). lia.
  - apply (applyDeadZone_on_int16 1999). lia.
Defined.

Lemma applyDeadZone_opp (v : Z) :
  -32767 <= v <= 32767 -> applyDeadZone (- v) = - applyDeadZone v.
Proof.
  intros H. destruct (Z.ltb_spec (Z.abs v) 2000).
  - rewrite (applyDeadZone_zero v), (applyDeadZone_zero (- v)); lia.
  - rewrite (applyDeadZone_keep v), (applyDeadZone_keep (- v)); lia.
Qed.

(** What the dead zone makes of a narrowed reading is symmetric:
    0, or of magnitude 2000 to 32767. *)
Lemma filtered_field (v : Z) :
  -32768 <= v <= 32767 ->
  applyDeadZone v = 0 \/ 2000 <= Z.abs (applyDeadZone v) <= 32767.
Proof.
  intros H. destruct (Z.eq_dec v (-32768)) as [->|Hne]; [now left|].
  destruct (Z.ltb_spec (Z.abs v) 2000).
  - left. now apply applyDeadZone_zero.
  - right. rewrite applyDeadZone_keep; lia.
Qed.

Lemma quot3_bounds (x : Z) :
  2000 <= Z.abs x <= 32767 -> 666 <= Z.abs (Z.quot x 3) <= 10922.
Proof.
  intros H. rewrite <- (Z.quot_abs x 3) by lia.
  change (Z.abs 3) with 3.
  rewrite Z.quot_div_nonneg by lia.
  pose proof (Z.div_mod (Z.abs x) 3 ltac:(lia)) as HD.
  pose proof (Z.mod_pos_bound (Z.abs x) 3 ltac:(lia)) as HM.
  lia.
Qed.

(** The Y path gives the exact negation of the X path, for every raw
    reading. *)
Lemma narrowY_opp (raw : Z) :
  applyDeadZone (narrowY raw) = - applyDeadZone (narrowX raw).
Proof.
  unfold narrowY, narrowX. destruct (Z.eqb_spec raw 32768); [reflexivity|].
  pose proof (int16_range raw) as HR. unfold neg16.
  destruct (Z.eq_dec (int16 raw) (-32768)) as [E|E].
  - rewrite E. reflexivity.
  - rewrite (int16_small (- int16 raw)) by lia.
    apply applyDeadZone_opp. lia.
Qed.

Section StickRange.

Variables (cfg : joystickConfig) (v : Vars) (p : Poll).
Variables (lx ly rx ry : Z) (r2 : N).
Hypothesis HLX : result (rawAxis cfg (readState p) axLeftX) = Some lx.
Hypothesis HLY : result (rawAxis cfg (readState p) axLeftY) = Some ly.
Hypothesis HRX : result (rawAxis cfg (readState p) axRightX) = Some rx.
Hypothesis HRY : result (rawAxis cfg (readState p) axRightY) = Some ry.
Hypothesis HR2 : nth_error (buttons cfg) btnR2 = Some r2.

(** X3.  Whatever the four raw readings (any Go [int]), each field of
    the message sent is 0 or of magnitude 2000..32767 while R2 is up,
    and 0 or of magnitude 666..10922 while R2 is down: the value -32768
    never leaves the loop. *)
Theorem sent_fields_symmetric_range :
  exists s,
    sent (trace (cycle cfg false v p)) = [s] /\
    let ok := fun f =>
      if isDown (readState p) r2
      then f = 0 \/ 666 <= Z.abs f <= 10922
      else f = 0 \/ 2000 <= Z.abs f <= 32767 in
    ok (Rx s) /\ ok (Ry s) /\ ok (Lx s) /\ ok (Ly s).
Proof.
  exists (scaled (readState p) r2 (filtered lx ly rx ry)).
  split; [apply (cycle_sent cfg v p lx ly rx ry r2); assumption|].
  destruct (scaled_fields (readState p) r2 lx ly rx ry) as (E1 & E2 & E3 & E4).
  intros ok. subst ok. cbv beta. rewrite E1, E2, E3, E4.
  pose proof (filtered_field _ (narrowX_range lx)) as F1.
  pose proof (filtered_field _ (narrowY_range ly)) as F2.
  pose proof (filtered_field _ (narrowX_range rx)) as F3.
  pose proof (filtered_field _ (narrowY_range ry)) as F4.
  destruct (isDown (readState p) r2).
  - repeat split;
      [destruct F1 as [F|F] | destruct F2 as [F|F]
      | destruct F3 as [F|F] | destruct F4 as [F|F]];
      first [left; now rewrite F | right; now apply quot3_bounds].
  - now repeat split.
Qed.

(** X4.  The Y field is the exact negation of what the X path gives for
    the same raw reading: equal raw values on the two axes of a stick
    give opposite fields, in and out of precision mode. *)
Theorem y_field_negates_x_path :
  exists s,
    sent (trace (cycle cfg false v p)) = [s] /\
    (ly = lx -> Ry s = - Rx s) /\
    (ry = rx -> Ly s = - Lx s).
Proof.
  exists (scaled (readState p) r2 (filtered lx ly rx ry)).
  split; [apply (cycle_sent cfg v p lx ly rx ry r2); assumption|].
  destruct (scaled_fields (readState p) r2 lx ly rx ry) as (E1 & E2 & E3 & E4).
  split; intros ->.
  - rewrite E1, E2, narrowY_opp.
    destruct (isDown (readState p) r2); [apply Z.quot_opp_l; lia | reflexivity].
  - rewrite E3, E4, narrowY_opp.
    destruct (isDown (readState p) r2); [apply Z.quot_opp_l; lia | reflexivity].
Qed.

(** X5.  A raw reading inside -32767..32767 is not distorted: outside
    the dead zone and with R2 up, an X field is the raw value and a Y
    field its negation. *)
Theorem in_range_reading_passes :
  isDown (readState p) r2 = false ->
  exists s,
    sent (trace (cycle cfg false v p)) = [s] /\
    (2000 <= Z.abs lx <= 32767 -> Rx s = lx) /\
    (2000 <= Z.abs ly <= 32767 -> Ry s = - ly) /\
    (2000 <= Z.abs rx <= 32767 -> Lx s = rx) /\
    (2000 <= Z.abs ry <= 32767 -> Ly s = - ry).
Proof.
  intros HUp.
  exists (scaled (readState p) r2 (filtered lx ly rx ry)).
  split; [apply (cycle_sent cfg v p lx ly rx ry r2); assumption|].
  destruct (scaled_fields (readState p) r2 lx ly rx ry) as (E1 & E2 & E3 & E4).
  rewrite HUp in *.
  assert (NX : forall raw, 2000 <= Z.abs raw <= 32767 ->
                 applyDeadZone (narrowX raw) = raw).
  { intros raw H. unfold narrowX. destruct (Z.eqb_spec raw 32768); [lia|].
    rewrite int16_small by lia. apply applyDeadZone_keep. lia. }
  repeat split; intros H.
  - now rewrite E1, NX.
  - now rewrite E2, narrowY_opp, NX.
  - now rewrite E3, NX.
  - now rewrite E4, narrowY_opp, NX.
Qed.

End StickRange.

Lemma sent_fields_symmetric_range_witness :
  exists s,
    sent (trace (cycle tflightHotasXConfig false initVars
                   (poll [-32768; 98304; 0; 0; -32768] 0 false))) = [s].
Proof.
  destruct (sent_fields_symmetric_range tflightHotasXConfig initVars
              (poll [-32768; 98304; 0; 0; -32768] 0 false)
              (-32768) 0 (-32768) 98304 8
              eq_refl eq_refl eq_refl eq_refl eq_refl) as (s & Hs & _).
  now exists s.
Defined.

Lemma y_field_negates_x_path_witness :
  exists s,
    sent (trace (cycle tflightHotasXConfig false initVars
                   (poll [5000; 5000; 40000; 0; 40000] 0 false))) = [s] /\
    Ry s = - Rx s /\ Ly s = - Lx s.
Proof.
  destruct (y_field_negates_x_path tflightHotasXConfig initVars
              (poll [5000; 5000; 40000; 0; 40000] 0 false)
              40000 40000 5000 5000 8
              eq_refl eq_refl eq_refl eq_refl eq_refl) as (s & Hs & H1 & H2).
  exists s. repeat split; [exact Hs | exact (H1 eq_refl) | exact (H2 eq_refl)].
Defined.

Lemma in_range_reading_passes_witness :
  exists s,
    sent (trace (cycle tflightHotasXConfig false initVars
                   (poll [5000; -7000; 0; 0; -32767] 0 false))) = [s] /\
    Rx s = -32767 /\ Lx s = 5000 /\ Ly s = 7000.
Proof.
  destruct (in_range_reading_passes tflightHotasXConfig initVars
              (poll [5000; -7000; 0; 0; -32767] 0 false)
              (-32767) 0 5000 (-7000) 8
              eq_refl eq_refl eq_refl eq_refl eq_refl eq_refl)
    as (s & Hs & H1 & _ & H3 & H4).
  exists s. repeat split;
    [exact Hs | apply H1 | apply H3 | rewrite H4]; lia.
Defined.

(** ** What [setupJoystick] leaves behind *)

(** X6.  When [setupJoystick] returns, it returns [true], the joystick
    is the one [joystick.Open] gave for the id, the type is one of the
    four case labels (compared as written, case and all) and the
    profile installed is one of the five tables.  When it exits with
    the could-not-open message, [Open] failed for that id. *)
Theorem setupJoystick_ready_inv (jsTypeFlag : option string) (GOOS : string)
    (Open : Z -> option Joystick) (id : Z) :
  (forall js cfg r,
     setupJoystick jsTypeFlag GOOS Open id = Ready js cfg r ->
     r = true /\ Open id = Some js /\ In cfg selectable /\
     exists t, jsTypeFlag = Some t /\ In t jsTypes) /\
  (forall id',
     setupJoystick jsTypeFlag GOOS Open id = Exit (CouldNotOpen id') ->
     id' = id /\ Open id = None).
Proof.
  unfold setupJoystick. split.
  - intros js cfg r H.
    destruct jsTypeFlag as [t|]; [|discriminate].
    destruct (String.eqb t ""); [discriminate|].
    destruct (Open id) as [js'|]; [|discriminate].
    destruct (String.eqb_spec t "DualShock4") as [->|_].
    { destruct (String.eqb GOOS "windows"); injection H as <- <- <-;
        (repeat split; [simpl; tauto | exists "DualShock4"%string; simpl; tauto]). }
    destruct (String.eqb_spec t "HotasX") as [->|_].
    { injection H as <- <- <-.
      repeat split; [simpl; tauto | exists "HotasX"%string; simpl; tauto]. }
    destruct (String.eqb_spec t "EightBitDoSF30Pro") as [->|_].
    { injection H as <- <- <-.
      repeat split; [simpl; tauto | exists "EightBitDoSF30Pro"%string; simpl; tauto]. }
    destruct (String.eqb_spec t "SteamController") as [->|_]; [|discriminate].
    injection H as <- <- <-.
    repeat split; [simpl; tauto | exists "SteamController"%string; simpl; tauto].
  - intros id' H.
    destruct jsTypeFlag as [t|]; [|discriminate].
    destruct (String.eqb t ""); [discriminate|].
    destruct (Open id) as [js'|].
    + destruct (String.eqb t "DualShock4");
        [destruct (String.eqb GOOS "windows"); discriminate|].
      destruct (String.eqb t "HotasX"); [discriminate|].
      destruct (String.eqb t "EightBitDoSF30Pro"); [discriminate|].
      destruct (String.eqb t "SteamController"); discriminate.
    + injection H as <-. now split.
Qed.

Lemma setupJoystick_ready_inv_witness :
  Some 7 = Some 7 /\ In tflightSteamControllerConfig selectable.
Proof.
  destruct (setupJoystick_ready_inv (Some "SteamController"%string) "linux"
              (fun _ => Some 7) 3) as (H & _).
  destruct (H 7 tflightSteamControllerConfig true eq_refl) as (_ & HO & HS & _).
  split; [exact HO | exact HS].
Defined.

(** X7.  The joystick is opened before the type is looked at: with a
    non-empty type, recognised or not, a failing [Open] ends
    [setupJoystick] with the could-not-open message; and a missing type
    ends it without [Open] having a say. *)
Theorem setupJoystick_open_first (t GOOS : string) (Open : Z -> option Joystick)
    (id : Z) :
  t <> ""%string ->
  Open id = None ->
  setupJoystick (Some t) GOOS Open id = Exit (CouldNotOpen id) /\
  (forall Open',
     setupJoystick None GOOS Open' id = setupJoystick None GOOS Open id /\
     setupJoystick (Some ""%string) GOOS Open' id =
       setupJoystick (Some ""%string) GOOS Open id).
Proof.
  intros Hne HO. split.
  - unfold setupJoystick. apply String.eqb_neq in Hne. now rewrite Hne, HO.
  - intros Open'. split; reflexivity.
Qed.

Lemma setupJoystick_open_first_witness :
  setupJoystick (Some "HotasX"%string) "linux" (fun _ => None) 2 =
    Exit (CouldNotOpen 2).
Proof.
  apply (setupJoystick_open_first "HotasX" "linux" (fun _ => None) 2);
    [discriminate | reflexivity].
Defined.

(** ** The button mask *)

Lemma land_pow2 (a b : N) :
  N.land a (2 ^ b) = (if N.testbit a b then 2 ^ b else 0)%N.
Proof.
  apply N.bits_inj. intros n. rewrite N.land_spec, N.pow2_bits_eqb.
  destruct (N.eqb_spec b n) as [->|Hne].
  - destruct (N.testbit a n); [now rewrite N.pow2_bits_true | now rewrite N.bits_0].
  - rewrite andb_false_r.
    destruct (N.testbit a b); [|now rewrite N.bits_0].
    rewrite N.pow2_bits_eqb. symmetry. now apply N.eqb_neq.
Qed.

(** X8.  For a bit index below 32 the test [Buttons&(1<<b) != 0] reads
    bit [b] of the mask; for an index of 32 or more the shift leaves
    nothing in the 32-bit mask and the button is never seen down.
    Every entry of the five tables is below 32. *)
Theorem isDown_reads_bit (st : State) (b : N) :
  ((b < 32)%N -> isDown st b = N.testbit (Buttons st) b) /\
  ((32 <= b)%N -> isDown st b = false) /\
  (forall cfg bit,
     In cfg selectable -> In bit (buttons cfg) ->
     isDown st bit = N.testbit (Buttons st) bit).
Proof.
  assert (HLt : forall c, (c < 32)%N -> isDown st c = N.testbit (Buttons st) c).
  { intros c H. unfold isDown, shl1. rewrite N.shiftl_1_l.
    rewrite N.mod_small by (apply N.pow_lt_mono_r; lia).
    rewrite land_pow2. destruct (N.testbit (Buttons st) c); [|reflexivity].
    destruct (N.eqb_spec (2 ^ c) 0) as [E|E]; [|reflexivity].
    now apply N.pow_nonzero in E. }
  split; [exact (HLt b)|]. split.
  - intros H. unfold isDown, shl1. rewrite N.shiftl_1_l.
    replace b with (32 + (b - 32))%N by lia.
    rewrite N.pow_add_r, N.mul_comm, N.Div0.mod_mul, N.land_0_r.
    reflexivity.
  - intros cfg bit HC HB. apply HLt.
    simpl in HC.
    destruct HC as [<-|[<-|[<-|[<-|[<-|[]]]]]];
      vm_compute in HB;
      repeat (destruct HB as [<-|HB]; [reflexivity|]); contradiction.
Qed.

Lemma isDown_reads_bit_witness :
  isDown {| AxisData := []; Buttons := 524288 |} 19 = true.
Proof.
  destruct (isDown_reads_bit {| AxisData := []; Buttons := 524288 |} 19)
    as (H & _).
  rewrite H; [reflexivity | reflexivity].
Defined.

(** ** [listJoysticks] *)

Section Listing.

Variables (Open : Z -> option Joystick) (Name : Joystick -> string).
Variables (AxisCount ButtonCount : Joystick -> Z).

Local Abbreviation run j n :=
  (listFrom Open Name AxisCount ButtonCount (Z.of_nat j) n).

Lemma listFrom_step (j n : nat) :
  run j (S n) =
  OpenCall (Z.of_nat j) ::
  match Open (Z.of_nat j) with
  | None => if Z.of_nat j =? 0 then [PrintNone] else []
  | Some js =>
      PrintJoystick (Z.of_nat j) (Name js) (AxisCount js) (ButtonCount js) ::
      CloseCall (Z.of_nat j) :: run (S j) n
  end.
Proof.
  cbn [listFrom]. now rewrite Nat2Z.inj_succ, <- Z.add_1_r.
Qed.

Lemma listFrom_prefix (n : nat) : forall j,
  let t := run j n in
  let k := List.length (listedIds t) in
  (k <= n)%nat /\
  listedIds t = map Z.of_nat (seq j k) /\
  closedIds t = listedIds t /\
  (forall i, (j <= i < j + k)%nat -> Open (Z.of_nat i) <> None) /\
  ((k < n)%nat ->
   Open (Z.of_nat (j + k)) = None /\
   openedIds t = map Z.of_nat (seq j (S k))) /\
  (k = n -> openedIds t = map Z.of_nat (seq j n)).
Proof.
  induction n as [|n IH]; intros j.
  - cbn [listFrom listedIds closedIds openedIds List.length seq map].
    split; [lia|]. split; [reflexivity|]. split; [reflexivity|].
    split; [intros i Hi; lia|]. split; [intros Hk; lia | reflexivity].
  - cbv zeta. rewrite listFrom_step.
    destruct (Open (Z.of_nat j)) as [js|] eqn:EO.
    + specialize (IH (S j)). cbv zeta in IH.
      destruct IH as (I1 & I2 & I3 & I4 & I5 & I6).
      cbn [listedIds closedIds openedIds List.length].
      set (k := List.length (listedIds (run (S j) n))) in *.
      split; [lia|]. split; [cbn [seq map]; now rewrite I2|].
      split; [now rewrite I3|]. split; [|split].
      * intros i Hi. destruct (Nat.eq_dec i j) as [->|Hne];
          [now rewrite EO | apply I4; lia].
      * intros Hk. destruct (I5 ltac:(lia)) as (J1 & J2).
        split; [now replace (j + S k)%nat with (S j + k)%nat by lia|].
        cbn [seq map]. now rewrite J2.
      * intros Hk. cbn [seq map]. rewrite I6 by lia. reflexivity.
    + assert (E : listedIds (OpenCall (Z.of_nat j) ::
                    (if Z.of_nat j =? 0 then [PrintNone] else [])) = [])
        by (now destruct (Z.of_nat j =? 0)).
      assert (EC : closedIds (OpenCall (Z.of_nat j) ::
                    (if Z.of_nat j =? 0 then [PrintNone] else [])) = [])
        by (now destruct (Z.of_nat j =? 0)).
      assert (EP : openedIds (OpenCall (Z.of_nat j) ::
                    (if Z.of_nat j =? 0 then [PrintNone] else [])) = [Z.of_nat j])
        by (now destruct (Z.of_nat j =? 0)).
      rewrite E, EC, EP. cbn [List.length seq map].
      split; [lia|]. split; [reflexivity|]. split; [reflexivity|].
      split; [intros i Hi; lia|]. split.
      * intros _. now rewrite Nat.add_0_r.
      * intros H. discriminate H.
Qed.

Lemma listFrom_lines (n : nat) : forall j i name a b,
  In (PrintJoystick i name a b) (run j n) ->
  exists js, Open i = Some js /\ name = Name js /\
             a = AxisCount js /\ b = ButtonCount js.
Proof.
  induction n as [|n IH]; intros j i name a b H; [contradiction|].
  rewrite listFrom_step in H. destruct H as [H|H]; [discriminate|].
  destruct (Open (Z.of_nat j)) as [js|] eqn:EO.
  - destruct H as [H|[H|H]].
    + injection H as <- <- <- <-. now exists js.
    + discriminate.
    + now apply (IH (S j)).
  - destruct (Z.of_nat j =? 0); [destruct H as [H|[]]; discriminate | contradiction].
Qed.

Lemma listFrom_noneLines (n : nat) : forall j,
  (0 < j)%nat -> noneLines (run j n) = 0%nat.
Proof.
  induction n as [|n IH]; intros j Hj; [reflexivity|].
  rewrite listFrom_step. destruct (Open (Z.of_nat j)).
  - cbn [noneLines]. apply IH. lia.
  - destruct (Z.eqb_spec (Z.of_nat j) 0); [lia | reflexivity].
Qed.

(** X9.  [listJoysticks] prints the joysticks 0, 1, ..., k-1 in order,
    where k (at most 10) is the first id that fails to open, or 10 if
    none of the first ten fails; it closes each joystick it opened, in
    the same order, and it tries no id after the first failure and none
    beyond 9. *)
Theorem listJoysticks_prefix :
  let t := listJoysticks Open Name AxisCount ButtonCount in
  let k := List.length (listedIds t) in
  (k <= 10)%nat /\
  listedIds t = firstIds k /\
  closedIds t = listedIds t /\
  (forall i, (i < k)%nat -> Open (Z.of_nat i) <> None) /\
  ((k < 10)%nat ->
   Open (Z.of_nat k) = None /\ openedIds t = firstIds (S k)) /\
  (k = 10%nat -> openedIds t = firstIds 10).
Proof.
  pose proof (listFrom_prefix 10 0) as H. cbv zeta in H.
  destruct H as (H1 & H2 & H3 & H4 & H5 & H6).
  cbv zeta. unfold listJoysticks, firstIds. change 0 with (Z.of_nat 0).
  split; [exact H1|]. split; [exact H2|]. split; [exact H3|].
  split; [intros i Hi; apply H4; lia|]. split; [exact H5 | exact H6].
Qed.

(** X10.  "No joysticks detected" is printed exactly when joystick 0
    fails to open, and then nothing else happens; when it opens, the
    line is never printed.  Every joystick line carries the name and
    the axis and button counts of the joystick opened for that id. *)
Theorem listJoysticks_none_line :
  let t := listJoysticks Open Name AxisCount ButtonCount in
  (Open 0 = None -> t = [OpenCall 0; PrintNone]) /\
  (Open 0 <> None -> noneLines t = 0%nat) /\
  (forall i name a b,
     In (PrintJoystick i name a b) t ->
     exists js, Open i = Some js /\ name = Name js /\
                a = AxisCount js /\ b = ButtonCount js).
Proof.
  cbv zeta. unfold listJoysticks.
  pose proof (listFrom_step 0 9) as HS. change (Z.of_nat 0) with 0 in HS.
  split; [|split].
  - intros H. rewrite HS. now rewrite H.
  - intros H. rewrite HS.
    destruct (Open 0); [|contradiction].
    cbn [noneLines]. apply listFrom_noneLines. lia.
  - intros i name a b H. exact (listFrom_lines 10 0 i name a b H).
Qed.

End Listing.

Lemma listJoysticks_prefix_witness :
  listedIds (listJoysticks (fun i => if i <? 3 then Some i else None)
               (fun _ => "pad"%string) (fun _ => 4) (fun _ => 12)) = [0; 1; 2].
Proof.
  pose proof (listJoysticks_prefix (fun i => if i <? 3 then Some i else None)
                (fun _ => "pad"%string) (fun _ => 4) (fun _ => 12)) as H.
  cbv zeta in H. destruct H as (_ & H & _). exact H.
Defined.

Lemma listJoysticks_none_line_witness :
  listJoysticks (fun _ => None) (fun _ => "pad"%string) (fun _ => 4) (fun _ => 12)
  = [OpenCall 0; PrintNone].
Proof.
  pose proof (listJoysticks_none_line (fun _ => None) (fun _ => "pad"%string)
                (fun _ => 4) (fun _ => 12)) as H.
  cbv zeta in H. destruct H as (H & _). exact (H eq_refl).
Defined.

(** ** The two modes *)

Lemma cycle_test_no_action (cfg : joystickConfig) (v : Vars) (p : Poll) :
  count isAction (trace (cycle cfg true v p)) = 0%nat.
Proof.
  unfold cycle.
  apply count_bind_0; [destruct (readErr p); reflexivity | intros _].
  apply count_bind_0; [now apply sticks_count_0 | intros s].
  apply count_bind_0.
  { rewrite deliver_trace. now destruct (allZero s). }
  intros _. apply count_bind_0; [unfold dispatch; silent | intros _].
  apply count_bind_0; reflexivity.
Qed.

Lemma cycle_op_no_print (cfg : joystickConfig) (v : Vars) (p : Poll) :
  count isPrint (trace (cycle cfg false v p)) = 0%nat.
Proof.
  unfold cycle.
  apply count_bind_0; [destruct (readErr p); reflexivity | intros _].
  apply count_bind_0.
  { unfold sticks.
    repeat (apply count_bind_0; [now rewrite rawAxis_trace | intros ?raw]).
    apply count_bind_0; [reflexivity | intros r2].
    destruct (isDown (readState p) r2); reflexivity. }
  intros s. apply count_bind_0; [reflexivity | intros _].
  apply count_bind_0; [unfold dispatch; silent | intros _].
  apply count_bind_0; reflexivity.
Qed.

(** X11.  Test mode never calls the drone and never puts a message on
    the stick channel; operational mode never prints.  This holds for
    every profile, every run and every input, also when the loop
    panics. *)
Theorem modes_are_separate (cfg : joystickConfig) (v : Vars) (polls : list Poll) :
  count isAction (trace (loop cfg true v polls)) = 0%nat /\
  calls (trace (loop cfg true v polls)) = [] /\
  sent (trace (loop cfg true v polls)) = [] /\
  count isPrint (trace (loop cfg false v polls)) = 0%nat /\
  printed (trace (loop cfg false v polls)) = [].
Proof.
  assert (HA : count isAction (trace (loop cfg true v polls)) = 0%nat)
    by (apply loop_count_0; intros; apply cycle_test_no_action).
  assert (HP : count isPrint (trace (loop cfg false v polls)) = 0%nat)
    by (apply loop_count_0; intros; apply cycle_op_no_print).
  split; [exact HA|]. split; [|split; [|split; [exact HP|]]].
  - revert HA. generalize (trace (loop cfg true v polls)). unfold count.
    induction l as [|[] l IH]; simpl; intros H; try discriminate; auto.
  - revert HA. generalize (trace (loop cfg true v polls)). unfold count.
    induction l as [|[] l IH]; simpl; intros H; try discriminate; auto.
  - revert HP. generalize (trace (loop cfg false v polls)). unfold count.
    induction l as [|[] l IH]; simpl; intros H; try discriminate; auto.
Qed.

(** ** The R2 notices of test mode *)

Lemma isLine_buttonOnly (line : string) : buttonOnly (isLine line).
Proof. repeat split. Qed.

(** X12.  In test mode, in an iteration whose lookups are in range,
    "R2 released" is printed once exactly when the R2 bit is clear in
    the current mask and set in the previous one, and "R2 pressed" once
    exactly on the opposite edge; holding or leaving R2 prints
    neither. *)
Theorem r2_notices (cfg : joystickConfig) (v : Vars) (p : Poll) (r2 : N) :
  inRange cfg (readState p) = true ->
  nth_error (buttons cfg) btnR2 = Some r2 ->
  count (isLine "R2 released") (trace (cycle cfg true v p)) =
    (if negb (isDown (readState p) r2) && isDown (prevState v) r2
     then 1%nat else 0%nat) /\
  count (isLine "R2 pressed") (trace (cycle cfg true v p)) =
    (if isDown (readState p) r2 && negb (isDown (prevState v) r2)
     then 1%nat else 0%nat).
Proof.
  intros H ER2.
  destruct (inRange_elim _ _ H)
    as (lx & ly & rx & ry & r2' & en & _ & _ & _ & _ & _ & HB & HF).
  rewrite !(fun l => cycle_count _ cfg true v p r2 en (isLine_buttonOnly l) H ER2 HF).
  rewrite !count_r2Lines, !(count_dispatch cfg true _ _ _ en HB HF).
  unfold pressed.
  destruct en;
    rewrite ?(count_flips cfg _ _ _ true HB HF _ eq_refl);
    eval_counts; rewrite ?if_same; cbn [andb];
    destruct (isDown (readState p) r2), (isDown (prevState v) r2);
    split; reflexivity.
Qed.

Lemma r2_notices_witness :
  count (isLine "R2 released")
    (trace (cycle tflightHotasXConfig true
              {| sm := zeroSticks;
                 prevState := {| AxisData := []; Buttons := 256 |} |}
              (poll [0; 0; 0; 0; 0] 0 false))) = 1%nat.
Proof.
  destruct (r2_notices tflightHotasXConfig
              {| sm := zeroSticks;
                 prevState := {| AxisData := []; Buttons := 256 |} |}
              (poll [0; 0; 0; 0; 0] 0 false) 8 eq_refl eq_refl) as (H & _).
  exact H.
Defined.

(** ** One message and one sleep for every poll *)

Lemma no_sleeps (t : list Event) : count isSleep t = 0%nat -> sleeps t = [].
Proof.
  unfold count. induction t as [|[] t IH]; simpl; intros H;
    try discriminate; auto.
Qed.

Lemma sleeps_app (t u : list Event) : sleeps (t ++ u) = sleeps t ++ sleeps u.
Proof.
  induction t as [|e t IH]; simpl; [reflexivity|].
  destruct e; simpl; now rewrite IH.
Qed.

Lemma messageOf_run (cfg : joystickConfig) (st : State) (lx ly rx ry : Z) (r2 : N) :
  result (rawAxis cfg st axLeftX) = Some lx ->
  result (rawAxis cfg st axLeftY) = Some ly ->
  result (rawAxis cfg st axRightX) = Some rx ->
  result (rawAxis cfg st axRightY) = Some ry ->
  nth_error (buttons cfg) btnR2 = Some r2 ->
  messageOf cfg st = Some (scaled st r2 (filtered lx ly rx ry)).
Proof.
  intros E1 E2 E3 E4 ER2. unfold messageOf.
  pose proof (sticks_run cfg {| sm := zeroSticks; prevState := zeroState |}
                {| readState := st; readErr := None; flying := false |}
                lx ly rx ry r2 E1 E2 E3 E4 ER2 false zeroSticks) as HS.
  cbn [readState prevState] in HS. now rewrite HS.
Qed.

Lemma cycle_sleeps (cfg : joystickConfig) (test : bool) (v : Vars) (p : Poll) :
  inRange cfg (readState p) = true ->
  sleeps (trace (cycle cfg test v p)) = [if test then Ms150 else UpdatePeriodMs].
Proof.
  intros H.
  destruct (inRange_elim _ _ H)
    as (lx & ly & rx & ry & r2 & en & E1 & E2 & E3 & E4 & ER2 & HB & HF).
  rewrite (cycle_run cfg v p lx ly rx ry r2 E1 E2 E3 E4 ER2 test).
  unfold trace at 1. cbn [fst].
  rewrite !sleeps_app, (dispatch_result cfg test _ _ _ en HB HF).
  assert (sleeps (logLines p) = []) as ->
    by (unfold logLines; now destruct (readErr p)).
  assert (sleeps (r2Lines test (readState p) (prevState v) r2) = []) as ->
    by (unfold r2Lines;
        now destruct (isDown (readState p) r2), test, (isDown (prevState v) r2)).
  assert (sleeps (trace (deliver test (scaled (readState p) r2
                                         (filtered lx ly rx ry)))) = []) as ->
    by (rewrite deliver_trace;
        now destruct test,
          (allZero (scaled (readState p) r2 (filtered lx ly rx ry)))).
  assert (sleeps (trace (dispatch cfg test (readState p) (prevState v)
                           (flying p))) = []) as ->
    by (apply no_sleeps; unfold dispatch; silent).
  reflexivity.
Qed.

(** X13.  Along a run whose lookups are in range the loop sends one
    stick message for every poll, in order, each computed from the
    state of that poll alone (all-zero messages included), and sleeps
    once after every poll: the update period in operational mode,
    150 ms in test mode. *)
Theorem one_message_per_poll (cfg : joystickConfig) (polls : list Poll) :
  (forall p, In p polls -> inRange cfg (readState p) = true) ->
  forall v,
    map Some (sent (trace (loop cfg false v polls))) =
      map (fun p => messageOf cfg (readState p)) polls /\
    sleeps (trace (loop cfg false v polls)) =
      repeat UpdatePeriodMs (List.length polls) /\
    sleeps (trace (loop cfg true v polls)) =
      repeat Ms150 (List.length polls).
Proof.
  induction polls as [|p polls IH]; intros HR v; [now repeat split|].
  assert (Hp : inRange cfg (readState p) = true) by (apply HR; now left).
  assert (HR' : forall q, In q polls -> inRange cfg (readState q) = true)
    by (intros q Hq; apply HR; now right).
  destruct (inRange_elim _ _ Hp)
    as (lx & ly & rx & ry & r2 & en & E1 & E2 & E3 & E4 & ER2 & HB & HF).
  cbn [loop map List.length repeat].
  rewrite !trace_bind, !sent_app, !sleeps_app.
  destruct (cycle_completes cfg false v p Hp) as (w & Ew & _).
  destruct (cycle_completes cfg true v p Hp) as (w' & Ew' & _).
  rewrite Ew, Ew', !(cycle_sleeps cfg _ v p Hp).
  rewrite (cycle_sent cfg v p lx ly rx ry r2 E1 E2 E3 E4 ER2).
  rewrite (messageOf_run cfg _ lx ly rx ry r2 E1 E2 E3 E4 ER2).
  destruct (IH HR' w) as (I1 & I2 & _). destruct (IH HR' w') as (_ & _ & I3).
  cbn [app map]. now rewrite I1, I2, I3.
Qed.

Lemma one_message_per_poll_witness :
  List.length
    (sent (trace (loop tflightHotasXConfig false initVars
                    [poll [0; 0; 0; 0; 0] 0 false;
                     poll [9000; 0; 0; 0; 0] 0 false]))) = 2%nat.
Proof.
  destruct (one_message_per_poll tflightHotasXConfig
              [poll [0; 0; 0; 0; 0] 0 false; poll [9000; 0; 0; 0; 0] 0 false])
    with (v := initVars) as (H & _).
  - intros p [<-|[<-|[]]]; reflexivity.
  - rewrite <- (length_map Some), H. reflexivity.
Defined.

(** ** The drone calls of an iteration, in order *)

Lemma calls_app (t u : list Event) : calls (t ++ u) = calls t ++ calls u.
Proof.
  induction t as [|e t IH]; simpl; [reflexivity|].
  destruct e; simpl; now rewrite IH.
Qed.

Lemma no_calls (t : list Event) : count isDrone t = 0%nat -> calls t = [].
Proof.
  unfold count. induction t as [|[] t IH]; simpl; intros H;
    try discriminate; auto.
Qed.

Lemma calls_seq {B : Type} (m : M unit) (k : M B) :
  result m = Some tt -> calls (trace (m ;; k)) = calls (trace m) ++ calls (trace k).
Proof. intros H. now rewrite trace_bind, H, calls_app. Qed.

Lemma calls_onPress (cfg : joystickConfig) (st prev : State) (b : nat)
    (body : M unit) :
  calls (trace (onPress cfg st prev b body)) =
  if fires cfg st prev b then calls (trace body) else [].
Proof.
  unfold fires. destruct (nth_error (buttons cfg) b) as [bit|] eqn:E.
  - rewrite (onPress_run _ _ _ _ _ _ E). unfold when. now destruct pressed.
  - now rewrite (onPress_panic _ _ _ _ _ E).
Qed.

Section Order.

Variables (cfg : joystickConfig) (st prev : State) (fl enabled : bool).
Hypothesis HB : buttonsInRange cfg = true.
Hypothesis HF : nth_error (features cfg) flipsEnabled = Some enabled.

Lemma calls_flips :
  enabled = true ->
  calls (trace (flips cfg false st prev)) =
  callsOf cfg st prev btnDL [LeftFlip] ++ callsOf cfg st prev btnDR [RightFlip]
  ++ callsOf cfg st prev btnDU [ForwardFlip]
  ++ callsOf cfg st prev btnDD [BackFlip].
Proof.
  intros HE. unfold flips, callsOf.
  rewrite !calls_seq;
    rewrite ?result_onPress by reflexivity;
    rewrite ?(mapped_dpad cfg enabled HB HF) by (try exact HE; simpl; tauto);
    try reflexivity.
  now rewrite !calls_onPress.
Qed.

Lemma calls_dispatch :
  calls (trace (dispatch cfg false st prev fl)) =
  callsOf cfg st prev btnL1 [SetSlowMode]
  ++ callsOf cfg st prev btnL2 [Bounce]
  ++ callsOf cfg st prev btnR1 [SetFastMode]
  ++ callsOf cfg st prev btnSquare
       [GetFlightData; if fl then PalmLand else ThrowTakeOff]
  ++ callsOf cfg st prev btnTriangle [TakeOff]
  ++ callsOf cfg st prev btnCircle [TakePicture]
  ++ callsOf cfg st prev btnX [Land]
  ++ (if enabled then calls (trace (flips cfg false st prev)) else []).
Proof.
  unfold dispatch, callsOf.
  rewrite !calls_seq;
    rewrite ?result_onPress by (destruct fl; reflexivity);
    rewrite ?(mapped_always cfg HB) by (simpl; tauto);
    try reflexivity.
  rewrite !calls_onPress.
  rewrite (bind_run _ _ _ _ (index_run _ _ _ HF)). cbn [trace fst app].
  change (fst ?m) with (trace m).
  rewrite !if_same. cbn [app].
  destruct fl, enabled; reflexivity.
Qed.

End Order.

(** X14.  In operational mode, in an iteration whose lookups are in
    range, every button whose bit rises is dispatched, each once, and
    the calls come in the order of the source: L1, L2, R1, Square (the
    flight-data query, then palm land or throw take-off), Triangle,
    Circle, X, and with the flip feature D-pad left, right, up, down.
    So Triangle and X rising together give [TakeOff] before [Land]. *)
Theorem calls_in_source_order (cfg : joystickConfig) (v : Vars) (p : Poll)
    (enabled : bool) :
  inRange cfg (readState p) = true ->
  nth_error (features cfg) flipsEnabled = Some enabled ->
  let st := readState p in
  let prev := prevState v in
  calls (trace (cycle cfg false v p)) =
  callsOf cfg st prev btnL1 [SetSlowMode]
  ++ callsOf cfg st prev btnL2 [Bounce]
  ++ callsOf cfg st prev btnR1 [SetFastMode]
  ++ callsOf cfg st prev btnSquare
       [GetFlightData; if flying p then PalmLand else ThrowTakeOff]
  ++ callsOf cfg st prev btnTriangle [TakeOff]
  ++ callsOf cfg st prev btnCircle [TakePicture]
  ++ callsOf cfg st prev btnX [Land]
  ++ (if enabled
      then callsOf cfg st prev btnDL [LeftFlip]
           ++ callsOf cfg st prev btnDR [RightFlip]
           ++ callsOf cfg st prev btnDU [ForwardFlip]
           ++ callsOf cfg st prev btnDD [BackFlip]
      else []).
Proof.
  intros H HF st prev. subst st prev.
  destruct (inRange_elim _ _ H)
    as (lx & ly & rx & ry & r2 & en & E1 & E2 & E3 & E4 & ER2 & HB & _).
  rewrite (cycle_run cfg v p lx ly rx ry r2 E1 E2 E3 E4 ER2 false).
  unfold trace at 1. cbn [fst].
  rewrite !calls_app, (dispatch_result cfg false _ _ _ enabled HB HF).
  assert (calls (logLines p) = []) as ->
    by (unfold logLines; now destruct (readErr p)).
  assert (calls (r2Lines false (readState p) (prevState v) r2) = []) as ->
    by (unfold r2Lines;
        now destruct (isDown (readState p) r2), (isDown (prevState v) r2)).
  rewrite deliver_trace. cbn [calls app].
  rewrite (calls_dispatch cfg _ _ _ enabled HB HF), app_nil_r.
  destruct (bool_dec enabled true) as [E|E].
  - rewrite (calls_flips cfg _ _ enabled HB HF E). now rewrite E.
  - apply not_true_is_false in E. now rewrite E.
Qed.

Lemma calls_in_source_order_witness :
  calls (trace (cycle tflightHotasXConfig false initVars
                  (poll [0; 0; 0; 0; 0] 160 false))) = [TakeOff; Land].
Proof.
  rewrite (calls_in_source_order tflightHotasXConfig initVars
             (poll [0; 0; 0; 0; 0] 160 false) false eq_refl eq_refl).
  reflexivity.
Defined.

(** ** Read errors *)

Lemma trace_pair {A : Type} (t : list Event) (r : option A) : trace (t, r) = t.
Proof. reflexivity. Qed.

Lemma result_pair {A : Type} (t : list Event) (r : option A) : result (t, r) = r.
Proof. reflexivity. Qed.

Lemma cycle_read_error (cfg : joystickConfig) (test : bool) (v : Vars) (p : Poll) :
  cycle cfg test v p =
  (logLines p ++ trace (cycle cfg test v (withoutErr p)),
   result (cycle cfg test v (withoutErr p))).
Proof.
  unfold cycle, logLines, withoutErr. cbn [readErr readState flying].
  destruct (readErr p); reflexivity.
Qed.

Lemma cycle_clean_no_log (cfg : joystickConfig) (test : bool) (v : Vars) (p : Poll) :
  count isLog (trace (cycle cfg test v (withoutErr p))) = 0%nat.
Proof.
  unfold cycle, withoutErr. cbn [readErr readState flying].
  apply count_bind_0; [reflexivity | intros _].
  apply count_bind_0; [now apply sticks_count_0 | intros s].
  apply count_bind_0.
  { rewrite deliver_trace. now destruct test, (allZero s). }
  intros _. apply count_bind_0; [unfold dispatch; silent | intros _].
  apply count_bind_0; reflexivity.
Qed.

Lemma filter_keeps (q : Event -> bool) (t : list Event) :
  count q t = 0%nat -> filter (fun e => negb (q e)) t = t.
Proof.
  unfold count. induction t as [|e t IH]; simpl; [reflexivity|].
  destruct (q e); simpl; [discriminate|]. intros H. now rewrite IH.
Qed.

(** X15.  A failed read does not stop the loop and changes nothing but
    the log: with the log lines taken out, the trace of any run is the
    trace of the same run with error-free reads, and the two runs end
    in the same variables (or the same panic).  Each failed read of an
    iteration reached logs one line. *)
Theorem read_errors_only_log (cfg : joystickConfig) (test : bool)
    (polls : list Poll) : forall v,
  filter (fun e => negb (isLog e)) (trace (loop cfg test v polls)) =
    trace (loop cfg test v (map withoutErr polls)) /\
  result (loop cfg test v polls) =
    result (loop cfg test v (map withoutErr polls)) /\
  ((forall p, In p polls -> inRange cfg (readState p) = true) ->
   count isLog (trace (loop cfg test v polls)) =
     List.length (filter hasErr polls)).
Proof.
  induction polls as [|p polls IH]; intros v; [now repeat split|].
  cbn [loop map]. rewrite (cycle_read_error cfg test v p).
  set (c := cycle cfg test v (withoutErr p)).
  assert (HC : filter (fun e => negb (isLog e)) (trace c) = trace c)
    by (apply filter_keeps, cycle_clean_no_log).
  assert (HN : count isLog (trace c) = 0%nat) by apply cycle_clean_no_log.
  assert (HL : filter (fun e => negb (isLog e)) (logLines p) = [])
    by (unfold logLines; now destruct (readErr p)).
  assert (HE : count isLog (logLines p) = List.length (filter hasErr [p]))
    by (unfold logLines, hasErr; cbn [filter]; now destruct (readErr p)).
  pose proof (M_eta c) as Ec.
  destruct (result c) as [w|] eqn:Ew.
  - destruct (IH w) as (I1 & I2 & I3).
    rewrite (bind_run _ _ _ _ Ec).
    rewrite (bind_run _ _ (logLines p ++ trace c) w eq_refl).
    rewrite !trace_pair, !result_pair.
    split; [|split].
    + now rewrite !filter_app, HL, HC, I1.
    + exact I2.
    + intros HR. rewrite !count_app, HN, HE.
      rewrite I3 by (intros q Hq; apply HR; now right).
      cbn [filter]. destruct (hasErr p); cbn [List.length]; lia.
  - rewrite (bind_panic _ _ _ Ec).
    rewrite (bind_panic _ _ (logLines p ++ trace c) eq_refl).
    rewrite !trace_pair, !result_pair.
    split; [|split].
    + now rewrite filter_app, HL, HC.
    + reflexivity.
    + intros HR. exfalso.
      assert (Hp : inRange cfg (readState p) = true) by (apply HR; now left).
      destruct (cycle_completes cfg test v (withoutErr p) Hp) as (w & Hw & _).
      unfold c in Ew. congruence.
Qed.

Lemma read_errors_only_log_witness :
  count isLog
    (trace (loop tflightHotasXConfig false initVars
              [{| readState := {| AxisData := [0; 0; 0; 0; 0]; Buttons := 0 |};
                  readErr := Some "EOF"%string; flying := false |};
               poll [0; 0; 0; 0; 0] 0 false])) = 1%nat.
Proof.
  destruct (read_errors_only_log tflightHotasXConfig false
              [{| readState := {| AxisData := [0; 0; 0; 0; 0]; Buttons := 0 |};
                  readErr := Some "EOF"%string; flying := false |};
               poll [0; 0; 0; 0; 0] 0 false] initVars) as (_ & _ & H).
  rewrite H; [reflexivity|].
  intros p [<-|[<-|[]]]; reflexivity.
Defined.

(** ** What the loop remembers *)

Lemma bind_assoc {A B C : Type} (m : M A) (f : A -> M B) (g : B -> M C) :
  bind (bind m f) g = bind m (fun a => bind (f a) g).
Proof.
  destruct m as [t [a|]]; [|reflexivity]. simpl.
  destruct (f a) as [u [b|]]; simpl; [|reflexivity].
  destruct (g b) as [x r]. simpl. now rewrite app_assoc.
Qed.

Lemma loop_app (cfg : joystickConfig) (test : bool) (polls more : list Poll) :
  forall v,
  loop cfg test v (polls ++ more) =
  (w <- loop cfg test v polls ;; loop cfg test w more).
Proof.
  induction polls as [|p polls IH]; intros v.
  - cbn [app loop]. unfold ret, bind. now destruct (loop cfg test v more).
  - cbn [app loop]. rewrite bind_assoc.
    destruct (cycle cfg test v p) as [t [a|]]; [|reflexivity].
    rewrite !(bind_run _ _ t a eq_refl). now rewrite IH.
Qed.

(** X16.  After a run whose lookups are in range, the loop holds the
    state read by the last poll as its previous state and the message
    of the last poll as its stick message, whatever came before; so
    what a later poll does depends on the polls before it through the
    last state only. *)
Theorem loop_remembers_last (cfg : joystickConfig) (test : bool)
    (polls : list Poll) (p : Poll) (v : Vars) :
  (forall q, In q (polls ++ [p]) -> inRange cfg (readState q) = true) ->
  exists w,
    result (loop cfg test v (polls ++ [p])) = Some w /\
    prevState w = readState p /\
    Some (sm w) = messageOf cfg (readState p).
Proof.
  intros HR.
  assert (Hp : inRange cfg (readState p) = true)
    by (apply HR, in_or_app; right; now left).
  assert (HR' : forall q, In q polls -> inRange cfg (readState q) = true)
    by (intros q Hq; apply HR, in_or_app; now left).
  assert (HRun : forall l u,
             (forall q, In q l -> inRange cfg (readState q) = true) ->
             exists w, result (loop cfg test u l) = Some w).
  { induction l as [|q l IH]; intros u Hl; [now exists u|].
    destruct (cycle_completes cfg test u q (Hl q (or_introl eq_refl)))
      as (w & Ew & _).
    destruct (IH w (fun x Hx => Hl x (or_intror Hx))) as (w' & Ew').
    exists w'. cbn [loop]. now rewrite result_bind, Ew. }
  destruct (HRun polls v HR') as (u & Eu).
  destruct (inRange_elim _ _ Hp)
    as (lx & ly & rx & ry & r2 & en & E1 & E2 & E3 & E4 & ER2 & HB & HF).
  rewrite loop_app, result_bind, Eu. cbn [loop].
  rewrite result_bind.
  rewrite (cycle_run cfg u p lx ly rx ry r2 E1 E2 E3 E4 ER2 test).
  rewrite result_pair, (dispatch_result cfg test _ _ _ en HB HF).
  eexists. split; [reflexivity|]. cbn [prevState sm].
  split; [reflexivity|].
  now rewrite (messageOf_run cfg _ lx ly rx ry r2 E1 E2 E3 E4 ER2).
Qed.

Lemma loop_remembers_last_witness :
  exists w,
    result (loop tflightHotasXConfig false initVars
              ([poll [9000; 0; 0; 0; 0] 3 false] ++ [poll [0; 0; 0; 0; 0] 0 false]))
    = Some w /\
    prevState w = {| AxisData := [0; 0; 0; 0; 0]; Buttons := 0 |}.
Proof.
  destruct (loop_remembers_last tflightHotasXConfig false
              [poll [9000; 0; 0; 0; 0] 3 false] (poll [0; 0; 0; 0; 0] 0 false)
              initVars) as (w & Hw & HP & _).
  - intros q [<-|[<-|[]]]; reflexivity.
  - exists w. split; [exact Hw | exact HP].
Defined.

(** ** A state with too few axes *)

Lemma sticks_axis_panic (cfg : joystickConfig) (test : bool) (s : StickMessage)
    (st prev : State) :
  forallb (hasAxis cfg st) [axLeftX; axLeftY; axRightX; axRightY] = false ->
  sticks cfg test s st prev = ([], None).
Proof.
  unfold hasAxis. cbn [forallb]. intros H. unfold sticks.
  destruct (result (rawAxis cfg st axLeftX)) as [lx|] eqn:E1.
  2:{ rewrite (M_eta (rawAxis cfg st axLeftX)), rawAxis_trace, E1. reflexivity. }
  rewrite (bind_run _ _ _ _ (rawAxis_run _ _ _ _ E1)).
  destruct (result (rawAxis cfg st axLeftY)) as [ly|] eqn:E2.
  2:{ rewrite (M_eta (rawAxis cfg st axLeftY)), rawAxis_trace, E2. reflexivity. }
  rewrite (bind_run _ _ _ _ (rawAxis_run _ _ _ _ E2)).
  destruct (result (rawAxis cfg st axRightX)) as [rx|] eqn:E3.
  2:{ rewrite (M_eta (rawAxis cfg st axRightX)), rawAxis_trace, E3. reflexivity. }
  rewrite (bind_run _ _ _ _ (rawAxis_run _ _ _ _ E3)).
  destruct (result (rawAxis cfg st axRightY)) as [ry|] eqn:E4.
  2:{ rewrite (M_eta (rawAxis cfg st axRightY)), rawAxis_trace, E4. reflexivity. }
  discriminate H.
Qed.

(** X17.  When the state read lacks one of the four axes the profile
    names (the device has fewer axes than the profile expects, or the
    profile gives a negative index), the iteration panics in the stick
    part: it sends no message, makes no call and prints nothing; only
    the log line of a failed read comes before, and no later poll is
    read. *)
Theorem missing_axis_panics (cfg : joystickConfig) (test : bool) (v : Vars)
    (p : Poll) :
  forallb (hasAxis cfg (readState p)) [axLeftX; axLeftY; axRightX; axRightY]
    = false ->
  cycle cfg test v p = (logLines p, None) /\
  (forall polls, loop cfg test v (p :: polls) = (logLines p, None)).
Proof.
  intros H.
  assert (HC : cycle cfg test v p = (logLines p, None)).
  { unfold cycle.
    assert (HL : match readErr p with
                 | Some e => emit (LogPrintf e)
                 | None => ret tt
                 end = (logLines p, Some tt))
      by (unfold logLines; now destruct (readErr p)).
    rewrite (bind_run _ _ _ _ HL).
    rewrite (bind_panic _ _ _ (sticks_axis_panic cfg test (sm v) _ _ H)).
    rewrite trace_pair, result_pair. now rewrite app_nil_r. }
  split; [exact HC|]. intros polls. cbn [loop].
  now rewrite (bind_panic _ _ _ HC).
Qed.

Lemma empty_state_has_no_axis (cfg : joystickConfig) (b : N) :
  In cfg selectable ->
  forallb (hasAxis cfg {| AxisData := []; Buttons := b |})
    [axLeftX; axLeftY; axRightX; axRightY] = false.
Proof.
  simpl. intros [<-|[<-|[<-|[<-|[<-|[]]]]]]; reflexivity.
Qed.

Lemma missing_axis_panics_witness :
  readJoystick tflightHotasXConfig false [poll [0; 0; 0; 0] 0 false] = ([], None).
Proof.
  destruct (missing_axis_panics tflightHotasXConfig false initVars
              (poll [0; 0; 0; 0] 0 false) eq_refl) as (_ & H).
  exact (H []).
Defined.
